(** * flashback-back: the upload and streaming handlers of [backend/app/main.py]

    A shallow embedding of the two request handlers, [upload_file] and
    [websocket_processing].  Both are sequences of effectful calls wrapped in
    Python [try]/[except]/[finally] blocks, so they are written in a small
    state-and-exception monad over a [World] that holds the temporary
    directory, the task store and a log of every observable action.

    The services the handlers call ([file_processor], [ai_processor],
    [video_processor], [uuid.uuid4], the failures of [open] and [write]) are
    Section variables: the handlers only sequence them.  Each is a function
    from its arguments to the exception it raises or the value it returns.
    The socket is taken to stay open ([accept], [send_json] and [close] do not
    raise), and [os.remove], [os.path.exists] and [file.close] to behave as
    documented.  [print] calls write to the process's standard output only and
    are left out of the [World]. *)

From Stdlib Require Import ZArith Lia List.
From stdpp Require Import base option list strings gmap pretty.

Local Open Scope string_scope.
Local Open Scope Z_scope.
Local Open Scope list_scope.

(** ** Data *)

(** The bytes of an uploaded file: its length and its bytes by offset.  The
    handler never inspects the bytes; it asks for the size ([seek]/[tell]) and
    hands the whole content over ([read], then [write]). *)
Record blob := Blob {
  blob_len : Z;
  blob_at : Z -> Byte.byte
}.

Definition empty_blob : blob := Blob 0 (fun _ => Byte.x00).

(** [UploadFile]: [filename] is [Optional[str]]. *)
Record UploadFile := {
  filename : option string;
  file : blob
}.

(** Python truthiness of an [Optional[str]] and of a [str]. *)
Definition truthy_str (s : string) : bool :=
  match s with EmptyString => false | _ => true end.

Definition truthy (o : option string) : bool :=
  match o with None => false | Some s => truthy_str s end.

(** The text an f-string puts in place of [{file.filename}]. *)
Definition format_opt (o : option string) : string :=
  match o with None => "None" | Some s => s end.

Record Chapter := { title : string }.

Record Task := {
  task_filename : option string;
  task_chapters : list Chapter
}.

Record UploadResponse := {
  task_id : string;
  chapters : list string
}.

(** The JSON objects sent on the socket, by their ["status"]. *)
Inductive ProcessingEvent :=
| Processing (chapter : Z) (total_chapters : Z)
| ChapterComplete (video_path : string) (chapter_title : string)
| Completed (message : string)
| Error (message : string).

(** Exceptions, by the classes the handlers tell apart.  All of them are
    subclasses of [Exception]. *)
Inductive exn :=
| HTTPException (status_code : Z) (detail : string)
| IOError (msg : string)
| Exception (msg : string).

(** [str(e)]; Starlette prints an [HTTPException] as its status, a colon and
    its detail. *)
Definition str (e : exn) : string :=
  match e with
  | HTTPException c d => pretty c +:+ ": " +:+ d
  | IOError m => m
  | Exception m => m
  end.

Definition is_HTTPException (e : exn) : bool :=
  match e with HTTPException _ _ => true | _ => false end.

Definition is_IOError (e : exn) : bool :=
  match e with IOError _ => true | _ => false end.

(** Everything a handler does to the outside, in the order it does it. *)
Inductive Obs :=
| FsOpen (path : string)
| FsWrite (path : string)
| FsRemove (path : string)
| FileClose
| CallProcessFile (path : string)
| CallSubjects (content : string)
| Uuid4 (n : nat)
| DbStoreTask (id : string)
| DbGetChapters (id : string)
| WsAccept
| WsClose (code : Z) (reason : option string)
| WsSend (e : ProcessingEvent)
| CallScript (c : Chapter) (content_type : string)
| CallVoiceover (script : string)
| CallSubtitles (audio_path : string)
| CallImage (script : string) (content_type : string)
| CallVideo (script audio_path subtitles image_path : string)
| Sleep (seconds : Z).

Record World := {
  fs : gmap string blob;        (* the files on disk, by path *)
  db : gmap string Task;        (* the task store, by task id *)
  uuids : nat;                  (* how many uuids were drawn so far *)
  temp_path : option string;    (* [upload_file]'s local variable of that
                                   name; [None] while it is unbound *)
  trace : list Obs              (* oldest first *)
}.

Definition with_fs (f : gmap string blob) (w : World) : World :=
  {| fs := f; db := db w; uuids := uuids w; temp_path := temp_path w;
     trace := trace w |}.
Definition with_db (d : gmap string Task) (w : World) : World :=
  {| fs := fs w; db := d; uuids := uuids w; temp_path := temp_path w;
     trace := trace w |}.
Definition with_uuids (n : nat) (w : World) : World :=
  {| fs := fs w; db := db w; uuids := n; temp_path := temp_path w;
     trace := trace w |}.
Definition with_temp_path (p : option string) (w : World) : World :=
  {| fs := fs w; db := db w; uuids := uuids w; temp_path := p;
     trace := trace w |}.
Definition extend (w : World) (l : list Obs) : World :=
  {| fs := fs w; db := db w; uuids := uuids w; temp_path := temp_path w;
     trace := trace w ++ l |}.
Definition emit (o : Obs) (w : World) : World :=
  {| fs := fs w; db := db w; uuids := uuids w; temp_path := temp_path w;
     trace := trace w ++ [o] |}.

(** What was observed between [w] and a later [w']. *)
Definition new_obs (w w' : World) : list Obs :=
  drop (length (trace w)) (trace w').

(** The events sent on the socket, out of a list of observations. *)
Definition sent_events (l : list Obs) : list ProcessingEvent :=
  omap (fun o => match o with WsSend e => Some e | _ => None end) l.

(** The chapters handed to script generation, out of a list of
    observations. *)
Definition scripts_requested (l : list Obs) : list Chapter :=
  omap (fun o => match o with CallScript c _ => Some c | _ => None end) l.

(** Calls of pipeline stages. *)
Definition is_call (o : Obs) : bool :=
  match o with
  | CallScript _ _ | CallVoiceover _ | CallSubtitles _ | CallImage _ _
  | CallVideo _ _ _ _ => true
  | _ => false
  end.

(** What happened on the socket: accept, sends and closes. *)
Definition is_ws (o : Obs) : bool :=
  match o with WsAccept | WsClose _ _ | WsSend _ => true | _ => false end.

Definition ws_actions (l : list Obs) : list Obs := List.filter is_ws l.

Definition is_store (o : Obs) : bool :=
  match o with DbStoreTask _ => true | _ => false end.

Definition is_uuid (o : Obs) : bool :=
  match o with Uuid4 _ => true | _ => false end.

Definition is_processing (e : ProcessingEvent) : bool :=
  match e with Processing _ _ => true | _ => false end.

(** ** The monad: state passing with Python exceptions *)

Inductive Result (A : Type) :=
| Ok (a : A)
| Raise (e : exn).
Arguments Ok {A} a.
Arguments Raise {A} e.

Definition M (A : Type) : Type := World -> Result A * World.

Definition ret {A} (a : A) : M A := fun w => (Ok a, w).

Definition raise {A} (e : exn) : M A := fun w => (Raise e, w).

Definition bind {A B} (m : M A) (k : A -> M B) : M B :=
  fun w =>
    match m w with
    | (Ok a, w') => k a w'
    | (Raise e, w') => (Raise e, w')
    end.

Notation "x <- m ;; k" := (bind m (fun x => k))
  (at level 100, m at next level, right associativity).
Notation "m ;;; k" := (bind m (fun _ => k))
  (at level 100, right associativity).

(** One [except <class> as e: handler] clause: the test for the class and the
    handler. *)
Definition clause (A : Type) : Type := (exn -> bool) * (exn -> M A).

(** [try: body  except ...: ...  except ...: ...].  The first clause whose
    class the exception belongs to handles it; what a handler raises is not
    offered to the later clauses. *)
Definition try_except {A} (body : M A) (clauses : list (clause A)) : M A :=
  fun w =>
    match body w with
    | (Ok a, w') => (Ok a, w')
    | (Raise e, w') =>
        match List.find (fun c => fst c e) clauses with
        | Some c => snd c e w'
        | None => (Raise e, w')
        end
    end.

(** The classes named in the [except] clauses. *)
Definition any_Exception (e : exn) : bool := true.

(** [try: body  finally: fin].  The [finally] block runs on every exit; an
    exception it raises replaces the outcome of [body]. *)
Definition try_finally {A} (body : M A) (fin : M unit) : M A :=
  fun w =>
    match body w with
    | (r, w') =>
        match fin w' with
        | (Ok _, w'') => (r, w'')
        | (Raise e, w'') => (Raise e, w'')
        end
    end.

Definition when (b : bool) (m : M unit) : M unit :=
  if b then m else ret tt.

Definition get_world : M World := fun w => (Ok w, w).
Definition log (o : Obs) : M unit := fun w => (Ok tt, emit o w).

(** The outcome of an external call: the exception it raises or its value. *)
Definition lift {A} (r : exn + A) : M A :=
  match r with inl e => raise e | inr a => ret a end.

(** [for idx, x in enumerate(l): body idx x], counting from [idx]. *)
Fixpoint for_enumerate {A} (idx : Z) (l : list A) (body : Z -> A -> M unit)
    : M unit :=
  match l with
  | [] => ret tt
  | x :: rest => body idx x ;;; for_enumerate (idx + 1) rest body
  end.

(** ** Python list slicing *)

(** [PySlice_AdjustIndices] for one bound of a slice of step 1 over a sequence
    of length [n]. *)
Definition adjust_index (n i : Z) : Z :=
  if i <? 0 then Z.max (i + n) 0 else Z.min i n.

(** [l[i:j]]. *)
Definition py_slice {A} (l : list A) (i j : Z) : list A :=
  let n := Z.of_nat (length l) in
  let a := adjust_index n i in
  let b := adjust_index n j in
  take (Z.to_nat (b - a)) (drop (Z.to_nat a) l).

(** ** A concrete instance

    Collaborators, files and a store on which the handlers can be run. *)
Module Demo.

Definition process_file (path : string) (on_disk : option blob)
    : exn + string :=
  match on_disk with
  | Some b =>
      if blob_len b =? 0 then inl (Exception "empty document")
      else inr "extracted text"
  | None => inl (IOError "no such file")
  end.

Definition generact_list_of_subject (content : string)
    : exn + list string :=
  inr ["Intro"; "Body"; "Conclusion"].

Definition generate_script (c : Chapter) (content_type : string)
    : exn + string :=
  inr ("script of " +:+ title c).

Definition generate_voiceover (script : string) : exn + string :=
  if String.eqb script "script of Broken"
  then inl (Exception "voice synthesis failed")
  else inr ("audio of " +:+ script).

Definition generate_subtitles (audio_path : string) : exn + string :=
  inr ("subtitles of " +:+ audio_path).

Definition generate_image (script content_type : string) : exn + string :=
  inr ("image of " +:+ script).

Definition create_video (script audio_path subtitles image_path : string)
    : exn + string :=
  inr ("video of " +:+ script).

Definition uuid4_str (n : nat) : string := "task-" +:+ pretty n.

Definition open_error (path : string) : option exn := None.

Definition write_error (path : string) (content : blob) : option exn := None.

Definition not_found (id : string) : exn :=
  Exception ("Task not found: " +:+ id).

Definition three_chapters : list Chapter :=
  [Build_Chapter "Intro"; Build_Chapter "Body"; Build_Chapter "Conclusion"].

Definition with_broken_chapter : list Chapter :=
  [Build_Chapter "Intro"; Build_Chapter "Broken"; Build_Chapter "Conclusion"].

Definition task_a : Task :=
  {| task_filename := Some "doc.txt"; task_chapters := three_chapters |}.

Definition task_b : Task :=
  {| task_filename := Some "notes.txt";
     task_chapters := with_broken_chapter |}.

(** A world with two stored tasks and an empty temporary directory. *)
Definition world : World :=
  {| fs := ∅;
     db := <["task-a" := task_a]> (<["task-b" := task_b]> ∅);
     uuids := 0;
     temp_path := None;
     trace := [] |}.

(** A small document. *)
Definition doc : UploadFile :=
  {| filename := Some "doc.txt"; file := Blob 2048 (fun _ => Byte.x61) |}.

(** A document with no content, on which extraction fails. *)
Definition empty_doc : UploadFile :=
  {| filename := Some "empty.txt"; file := empty_blob |}.

(** A named file of one byte more than 100 MB. *)
Definition big_doc : UploadFile :=
  {| filename := Some "big.bin";
     file := Blob (100 * 1024 * 1024 + 1) (fun _ => Byte.x00) |}.

(** The same content under an empty name. *)
Definition unnamed_big_doc : UploadFile :=
  {| filename := Some ""; file := file big_doc |}.

(** A disk with no space left: every write fails. *)
Definition full_disk (path : string) (content : blob) : option exn :=
  Some (IOError "[Errno 28] No space left on device").

End Demo.

Section Handlers.

(** ** The collaborators *)

(** [file_processor.process_file(path)] reads the file at [path]; it is given
    what the disk holds there. *)
Variable process_file : string -> option blob -> exn + string.
Variable generact_list_of_subject : string -> exn + list string.
Variable generate_script : Chapter -> string -> exn + string.
Variable generate_voiceover : string -> exn + string.
Variable generate_subtitles : string -> exn + string.
Variable generate_image : string -> string -> exn + string.
Variable create_video : string -> string -> string -> string -> exn + string.

(** [str(uuid.uuid4())], by the number of uuids drawn before. *)
Variable uuid4_str : nat -> string.

(** The exception [open(path, "wb")] raises, if any, and the one
    [buffer.write(content)] raises, if any. *)
Variable open_error : string -> option exn.
Variable write_error : string -> blob -> option exn.

(** The exception the task store raises for an id it does not hold. *)
Variable not_found : string -> exn.

(** ** Primitive actions *)

Definition open_wb (path : string) : M unit :=
  log (FsOpen path) ;;;
  match open_error path with
  | Some e => raise e
  | None => fun w => (Ok tt, with_fs (<[path := empty_blob]> (fs w)) w)
  end.

Definition buffer_write (path : string) (content : blob) : M unit :=
  log (FsWrite path) ;;;
  match write_error path content with
  | Some e => raise e
  | None => fun w => (Ok tt, with_fs (<[path := content]> (fs w)) w)
  end.

Definition os_path_exists (path : string) : M bool :=
  fun w => (Ok (bool_decide (is_Some (fs w !! path))), w).

Definition os_remove (path : string) : M unit :=
  fun w =>
    if bool_decide (is_Some (fs w !! path))
    then (Ok tt, emit (FsRemove path) (with_fs (delete path (fs w)) w))
    else (Raise (IOError ("[Errno 2] No such file or directory: '"
                            +:+ path +:+ "'")), w).

Definition file_close : M unit := log FileClose.

Definition call_process_file (path : string) : M string :=
  log (CallProcessFile path) ;;;
  w <- get_world ;;
  lift (process_file path (fs w !! path)).

Definition call_generact_list_of_subject (content : string)
    : M (list string) :=
  log (CallSubjects content) ;;; lift (generact_list_of_subject content).

Definition uuid4 : M string :=
  fun w => (Ok (uuid4_str (uuids w)),
            emit (Uuid4 (uuids w)) (with_uuids (S (uuids w)) w)).

Definition call_generate_script (c : Chapter) (content_type : string)
    : M string :=
  log (CallScript c content_type) ;;; lift (generate_script c content_type).

Definition call_generate_voiceover (script : string) : M string :=
  log (CallVoiceover script) ;;; lift (generate_voiceover script).

Definition call_generate_subtitles (audio_path : string) : M string :=
  log (CallSubtitles audio_path) ;;; lift (generate_subtitles audio_path).

Definition call_generate_image (script content_type : string) : M string :=
  log (CallImage script content_type) ;;;
  lift (generate_image script content_type).

Definition call_create_video (script audio_path subtitles image_path : string)
    : M string :=
  log (CallVideo script audio_path subtitles image_path) ;;;
  lift (create_video script audio_path subtitles image_path).

Definition ws_accept : M unit := log WsAccept.
Definition ws_close (code : Z) (reason : option string) : M unit :=
  log (WsClose code reason).
Definition ws_send_json (e : ProcessingEvent) : M unit := log (WsSend e).
Definition asyncio_sleep (seconds : Z) : M unit := log (Sleep seconds).

(** ** The task store *)

(** Modelled from the spec: [db_service.store_task] of
    [services/db_service.py], which is not among the sources.  It records the
    filename and the ordered chapters under the task id. *)
Definition store_task (id : string) (name : option string)
    (chs : list Chapter) : M unit :=
  fun w =>
    (Ok tt,
     emit (DbStoreTask id)
          (with_db (<[id := {| task_filename := name;
                               task_chapters := chs |}]> (db w)) w)).

(** Modelled from the spec: [db_service.get_chapters] of
    [services/db_service.py], which is not among the sources.  It returns the
    ordered chapters of the task and fails when the id is absent. *)
Definition get_chapters (id : string) : M (list Chapter) :=
  log (DbGetChapters id) ;;;
  w <- get_world ;;
  match db w !! id with
  | Some t => ret (task_chapters t)
  | None => raise (not_found id)
  end.

(** ** [upload_file] *)

Definition bind_temp_path (p : option string) : M unit :=
  fun w => (Ok tt, with_temp_path p w).

(** [f"./videos/tmp/{file.filename}"]. *)
Definition upload_path (file_ : UploadFile) : string :=
  "./videos/tmp/" +:+ format_opt (filename file_).

(** [100 * 1024 * 1024], the largest size accepted. *)
Definition max_size : Z := 100 * 1024 * 1024.

Definition upload_file (file_ : UploadFile) : M UploadResponse :=
  bind_temp_path None ;;;                 (* a new frame: nothing bound yet *)
  try_finally
    (try_except
       (when (negb (truthy (filename file_)))
          (raise (HTTPException 400 "No file name provided")) ;;;
        let file_size := blob_len (file file_) in
        when (file_size >? max_size)
          (raise (HTTPException 413
                    "File too large. Maximum size is 100MB")) ;;;
        let path := upload_path file_ in
        bind_temp_path (Some path) ;;;
        try_except
          (open_wb path ;;; buffer_write path (file file_))
          [(is_IOError,
            fun e => raise (HTTPException 500
                              ("Error saving file: " +:+ str e)))] ;;;
        chapters_of_subject <-
          try_except
            (content <- call_process_file path ;;
             call_generact_list_of_subject content)
            [(any_Exception,
              fun e =>
                os_remove path ;;;
                raise (HTTPException 422
                         ("Error processing file: " +:+ str e)))] ;;
        tid <- uuid4 ;;
        store_task tid (filename file_)
          (map Build_Chapter chapters_of_subject) ;;;
        ret {| task_id := tid; chapters := chapters_of_subject |})
       [(is_HTTPException, fun e => raise e);
        (any_Exception,
         fun e => raise (HTTPException 500
                           ("Unexpected error: " +:+ str e)))])
    (file_close ;;;                       (* ['file' in locals()] always holds *)
     w <- get_world ;;
     match temp_path w with
     | Some path =>
         present <- os_path_exists path ;;
         when present (os_remove path)
     | None => ret tt
     end).

(** ** [websocket_processing] *)

(** The body of the loop, for the chapter at position [idx] of [total]. *)
Definition process_chapter (content_type : string) (total : Z)
    (idx : Z) (chapter : Chapter) : M unit :=
  ws_send_json (Processing (idx + 1) total) ;;;
  script <- call_generate_script chapter content_type ;;
  audio_path <- call_generate_voiceover script ;;
  subtitles <- call_generate_subtitles audio_path ;;
  image_path <- call_generate_image script content_type ;;
  video_path <- call_create_video script audio_path subtitles image_path ;;
  ws_send_json (ChapterComplete video_path (title chapter)) ;;;
  asyncio_sleep 1.

Definition websocket_processing (task_id : string) (content_type : string)
    (start_chapter end_chapter : Z) : M unit :=
  if negb (truthy_str task_id) then
    ws_close 4003 (Some "Invalid task_id")
  else
    ws_accept ;;;
    try_finally
      (try_except
         (chapters <- get_chapters task_id ;;
          let selected_chapters :=
            py_slice chapters start_chapter (end_chapter + 1) in
          for_enumerate 0 selected_chapters
            (process_chapter content_type
               (Z.of_nat (length selected_chapters))) ;;;
          ws_send_json (Completed "All chapters processed successfully"))
         [(any_Exception, fun e => ws_send_json (Error (str e)))])
      (ws_close 1000 None).

(** ** Notions the statements use *)

(** The five stages on one chapter, as values: the video path, or the
    exception of the first stage that fails. *)
Definition pipeline (chapter : Chapter) (content_type : string)
    : exn + string :=
  match generate_script chapter content_type with
  | inl e => inl e
  | inr script =>
      match generate_voiceover script with
      | inl e => inl e
      | inr audio_path =>
          match generate_subtitles audio_path with
          | inl e => inl e
          | inr subtitles =>
              match generate_image script content_type with
              | inl e => inl e
              | inr image_path =>
                  create_video script audio_path subtitles image_path
              end
          end
      end
  end.

(** What the stages made for one chapter. *)
Record Artifacts := {
  a_script : string;
  a_audio_path : string;
  a_subtitles : string;
  a_image_path : string;
  a_video_path : string
}.

(** Every stage succeeded on [chapter], each fed as the handler feeds it. *)
Definition produces (content_type : string) (chapter : Chapter)
    (a : Artifacts) : Prop :=
  generate_script chapter content_type = inr (a_script a) /\
  generate_voiceover (a_script a) = inr (a_audio_path a) /\
  generate_subtitles (a_audio_path a) = inr (a_subtitles a) /\
  generate_image (a_script a) content_type = inr (a_image_path a) /\
  create_video (a_script a) (a_audio_path a) (a_subtitles a)
    (a_image_path a) = inr (a_video_path a).

(** The observations of one successful round of the loop. *)
Definition chapter_obs (content_type : string) (total idx : Z)
    (chapter : Chapter) (a : Artifacts) : list Obs :=
  [ WsSend (Processing (idx + 1) total);
    CallScript chapter content_type;
    CallVoiceover (a_script a);
    CallSubtitles (a_audio_path a);
    CallImage (a_script a) content_type;
    CallVideo (a_script a) (a_audio_path a) (a_subtitles a) (a_image_path a);
    WsSend (ChapterComplete (a_video_path a) (title chapter));
    Sleep 1 ].

(** The observations of successful rounds over [l], numbered from [idx]. *)
Definition rounds_obs (content_type : string) (total idx : Z)
    (l : list (Chapter * Artifacts)) : list Obs :=
  concat (imap (fun i p => chapter_obs content_type total
                             (idx + Z.of_nat i) (fst p) (snd p)) l).

(** The two events of round [i] (from 0) for a video path and a title. *)
Definition pair_events (total : Z) (i : nat) (p : string * string)
    : list ProcessingEvent :=
  [Processing (Z.of_nat i + 1) total; ChapterComplete (fst p) (snd p)].

Definition completed_event : ProcessingEvent :=
  Completed "All chapters processed successfully".

(** The file passes the two checks of [upload_file]. *)
Definition valid_upload (file_ : UploadFile) : Prop :=
  truthy (filename file_) = true /\ blob_len (file file_) <= max_size.

(** What leaves [upload_file] when saving the file raises [e]: the handler of
    [IOError] answers 500 "Error saving file"; an [HTTPException] is raised
    again as it is; anything else becomes 500 "Unexpected error". *)
Definition save_failure (e : exn) : exn :=
  if is_IOError e then
    HTTPException 500 ("Error saving file: " +:+ str e)
  else if is_HTTPException e then e
  else HTTPException 500 ("Unexpected error: " +:+ str e).

(** The world a call of [upload_file] on [w] leaves when it stores nothing:
    the files [files], [temp_path] as the call left it, and [obs] observed. *)
Definition left_by_upload (w : World) (files : gmap string blob)
    (local : option string) (obs : list Obs) : World :=
  {| fs := files; db := db w; uuids := uuids w; temp_path := local;
     trace := trace w ++ obs |}.

(** No task is stored and no task id is drawn in [obs]. *)
Definition stores_nothing (obs : list Obs) : bool :=
  forallb (fun o => negb (is_store o) && negb (is_uuid o)) obs.

(** Nothing is opened or written on disk in [obs]. *)
Definition writes_nothing (obs : list Obs) : bool :=
  forallb (fun o => match o with
                    | FsOpen _ | FsWrite _ => false
                    | _ => true
                    end) obs.

(** The status of an HTTP error; [None] for other exceptions. *)
Definition status_of {A} (r : Result A) : option Z :=
  match r with
  | Raise (HTTPException c _) => Some c
  | _ => None
  end.

(** Stage calls on chapter [c] and nothing else. *)
Definition stage_calls_of (c : Chapter) (calls : list Obs) : Prop :=
  forallb is_call calls = true /\ scripts_requested calls = [c].

(** The world a successful upload leaves. *)
Definition stored_by_upload (f : UploadFile) (w : World) (text : string)
    (titles : list string) : World :=
  {| fs := delete (upload_path f) (fs w);
     db := <[uuid4_str (uuids w) :=
               {| task_filename := filename f;
                  task_chapters := map Build_Chapter titles |}]> (db w);
     uuids := S (uuids w);
     temp_path := Some (upload_path f);
     trace := trace w ++
       [FsOpen (upload_path f); FsWrite (upload_path f);
        CallProcessFile (upload_path f); CallSubjects text;
        Uuid4 (uuids w); DbStoreTask (uuid4_str (uuids w));
        FileClose; FsRemove (upload_path f)] |}.

(** ** Further notions, for the properties beyond the claims *)

(** The helper at the end of [main.py]: its body is [pass], so it returns
    [None] whatever the task id. *)
Definition get_chapters_for_task (task_id : string) : M unit := ret tt.

(** The five stage calls of one round, in the order of the loop's body. *)
Definition stage_calls (content_type : string) (chapter : Chapter)
    (a : Artifacts) : list Obs :=
  [ CallScript chapter content_type;
    CallVoiceover (a_script a);
    CallSubtitles (a_audio_path a);
    CallImage (a_script a) content_type;
    CallVideo (a_script a) (a_audio_path a) (a_subtitles a) (a_image_path a) ].

(** What stage number [k] (from 1) returns, given the artifacts of the stages
    before it. *)
Definition stage_outcome (k : nat) (content_type : string) (chapter : Chapter)
    (a : Artifacts) : option (exn + string) :=
  match k with
  | 1%nat => Some (generate_script chapter content_type)
  | 2%nat => Some (generate_voiceover (a_script a))
  | 3%nat => Some (generate_subtitles (a_audio_path a))
  | 4%nat => Some (generate_image (a_script a) content_type)
  | 5%nat => Some (create_video (a_script a) (a_audio_path a) (a_subtitles a)
                     (a_image_path a))
  | _ => None
  end.

(** What stage number [k] made, out of the artifacts. *)
Definition stage_artifact (k : nat) (a : Artifacts) : string :=
  match k with
  | 1%nat => a_script a
  | 2%nat => a_audio_path a
  | 3%nat => a_subtitles a
  | 4%nat => a_image_path a
  | _ => a_video_path a
  end.

(** Stage [k] raises [e] on [chapter], the stages before it having made the
    artifacts [a]. *)
Definition fails_at (k : nat) (content_type : string) (chapter : Chapter)
    (a : Artifacts) (e : exn) : Prop :=
  stage_outcome k content_type chapter a = Some (inl e) /\
  forall j : nat,
    (1 <= j < k)%nat ->
    stage_outcome j content_type chapter a = Some (inr (stage_artifact j a)).

(** The titles of the "chapter_complete" events. *)
Definition completed_titles (l : list ProcessingEvent) : list string :=
  omap (fun e => match e with
                 | ChapterComplete _ t => Some t
                 | _ => None
                 end) l.

(** "processing" and "chapter_complete": the events of a chapter. *)
Definition is_progress (e : ProcessingEvent) : bool :=
  match e with Processing _ _ | ChapterComplete _ _ => true | _ => false end.

(** The pauses, in seconds. *)
Definition pauses (l : list Obs) : list Z :=
  omap (fun o => match o with Sleep n => Some n | _ => None end) l.

(** Neither extraction nor segmentation is called in [obs]. *)
Definition calls_no_service (obs : list Obs) : bool :=
  forallb (fun o => match o with
                    | CallProcessFile _ | CallSubjects _ => false
                    | _ => true
                    end) obs.

(** Saving the upload raises [e]: [open] does, or [open] succeeds and [write]
    does. *)
Definition saving_raises (file_ : UploadFile) (e : exn) : Prop :=
  open_error (upload_path file_) = Some e \/
  (open_error (upload_path file_) = None /\
   write_error (upload_path file_) (file file_) = Some e).

(** The upload is saved. *)
Definition saved (file_ : UploadFile) : Prop :=
  open_error (upload_path file_) = None /\
  write_error (upload_path file_) (file file_) = None.

(** Neither an accept nor a close of the socket. *)
Definition keeps_socket (o : Obs) : bool :=
  match o with WsAccept | WsClose _ _ => false | _ => true end.

(** What a run on a non-empty task id observes between the lookup and the
    close, by its three kinds: the lookup fails; every round succeeds; a stage
    fails in some round. *)
Inductive stream_body (content_type : string) (w : World) (id : string)
    (s e : Z) : list Obs -> Prop :=
| body_unknown :
    db w !! id = None ->
    stream_body content_type w id s e [WsSend (Error (str (not_found id)))]
| body_completed (t : Task) (arts : list Artifacts) :
    db w !! id = Some t ->
    Forall2 (produces content_type)
      (py_slice (task_chapters t) s (e + 1)) arts ->
    stream_body content_type w id s e
      (rounds_obs content_type
         (Z.of_nat (length (py_slice (task_chapters t) s (e + 1)))) 0
         (zip (py_slice (task_chapters t) s (e + 1)) arts)
       ++ [WsSend completed_event])
| body_failed (t : Task) (pre : list Chapter) (arts : list Artifacts)
    (c : Chapter) (post : list Chapter) (err : exn) (a : Artifacts)
    (k : nat) :
    db w !! id = Some t ->
    py_slice (task_chapters t) s (e + 1) = pre ++ c :: post ->
    Forall2 (produces content_type) pre arts ->
    fails_at k content_type c a err ->
    stream_body content_type w id s e
      (rounds_obs content_type (Z.of_nat (length (pre ++ c :: post))) 0
         (zip pre arts)
       ++ WsSend (Processing (Z.of_nat (length pre) + 1)
                    (Z.of_nat (length (pre ++ c :: post))))
          :: take k (stage_calls content_type c a)
       ++ [WsSend (Error (str err))]).

(** ** Worlds and traces *)

Create HintDb monad_ops.
#[local] Hint Unfold bind ret raise try_except try_finally when get_world
  log lift : monad_ops.
#[local] Hint Unfold ws_accept ws_close ws_send_json asyncio_sleep
  file_close call_generate_script call_generate_voiceover
  call_generate_subtitles call_generate_image call_create_video
  call_process_file call_generact_list_of_subject uuid4 store_task
  bind_temp_path open_wb buffer_write : monad_ops.

Lemma emit_extend (o : Obs) (w : World) : emit o w = extend w [o].
Proof. reflexivity. Qed.

Lemma extend_extend (w : World) (a b : list Obs) :
  extend (extend w a) b = extend w (a ++ b).
Proof. unfold extend; simpl. by rewrite app_assoc. Qed.

Lemma extend_nil (w : World) : extend w [] = w.
Proof. destruct w; unfold extend; simpl. by rewrite app_nil_r. Qed.

Lemma new_obs_extend (w : World) (l : list Obs) : new_obs w (extend w l) = l.
Proof. unfold new_obs; simpl. by rewrite drop_app_length. Qed.

(** Lists written with [++] and [::], put in right-nested form. *)
Ltac norm_app :=
  repeat first [rewrite <- app_assoc | progress cbn [app]].

Ltac fold_extend :=
  repeat rewrite emit_extend; repeat rewrite extend_extend; simpl app.

(** ** The loop of [websocket_processing] *)

Lemma pipeline_produces (ct : string) (ch : Chapter) (v : string) :
  pipeline ch ct = inr v <->
  exists a, produces ct ch a /\ a_video_path a = v.
Proof.
  unfold pipeline, produces. split.
  - destruct (generate_script ch ct) as [|sc] eqn:E1; [done|].
    destruct (generate_voiceover sc) as [|au] eqn:E2; [done|].
    destruct (generate_subtitles au) as [|su] eqn:E3; [done|].
    destruct (generate_image sc ct) as [|im] eqn:E4; [done|].
    intros E5. by exists (Build_Artifacts sc au su im v).
  - intros ([sc au su im v'] & (E1 & E2 & E3 & E4 & E5) & <-); simpl in *.
    by rewrite E1, E2, E3, E4.
Qed.

(** A round whose stages all succeed: the eight observations, in order. *)
Lemma process_chapter_ok (ct : string) (total idx : Z) (ch : Chapter)
    (a : Artifacts) (w : World) :
  produces ct ch a ->
  process_chapter ct total idx ch w
  = (Ok tt, extend w (chapter_obs ct total idx ch a)).
Proof.
  intros (E1 & E2 & E3 & E4 & E5).
  unfold process_chapter. autounfold with monad_ops. simpl.
  rewrite E1; simpl. rewrite E2; simpl. rewrite E3; simpl.
  rewrite E4; simpl. rewrite E5; simpl.
  by fold_extend.
Qed.

(** A round in which a stage fails: the "processing" event, then stage calls
    only, and the exception of the failing stage comes out. *)
Lemma process_chapter_fail (ct : string) (total idx : Z) (ch : Chapter)
    (e : exn) (w : World) :
  pipeline ch ct = inl e ->
  exists calls,
    stage_calls_of ch calls /\
    process_chapter ct total idx ch w
    = (Raise e, extend w (WsSend (Processing (idx + 1) total) :: calls)).
Proof.
  unfold pipeline, process_chapter. autounfold with monad_ops. simpl.
  destruct (generate_script ch ct) as [e1|sc]; simpl.
  { intros [= ->]. eexists [_]. split; [|by fold_extend]. done. }
  destruct (generate_voiceover sc) as [e1|au]; simpl.
  { intros [= ->]. eexists [_; _]. split; [|by fold_extend]. done. }
  destruct (generate_subtitles au) as [e1|su]; simpl.
  { intros [= ->]. eexists [_; _; _]. split; [|by fold_extend]. done. }
  destruct (generate_image sc ct) as [e1|im]; simpl.
  { intros [= ->]. eexists [_; _; _; _]. split; [|by fold_extend]. done. }
  intros ->; simpl.
  eexists [_; _; _; _; _]. split; [|by fold_extend]. done.
Qed.

Lemma rounds_obs_cons (ct : string) (total idx : Z) (ch : Chapter)
    (a : Artifacts) (l : list (Chapter * Artifacts)) :
  rounds_obs ct total idx ((ch, a) :: l)
  = chapter_obs ct total idx ch a ++ rounds_obs ct total (idx + 1) l.
Proof.
  unfold rounds_obs. rewrite imap_cons. cbn [concat fst snd].
  rewrite Z.add_0_r. f_equal. f_equal. apply imap_ext.
  intros i p _. simpl. f_equal. lia.
Qed.

(** The loop over chapters whose stages all succeed. *)
Lemma for_enumerate_ok (ct : string) (total : Z) (l : list Chapter) :
  forall (arts : list Artifacts) (idx : Z) (w : World),
    Forall2 (produces ct) l arts ->
    for_enumerate idx l (process_chapter ct total) w
    = (Ok tt, extend w (rounds_obs ct total idx (zip l arts))).
Proof.
  induction l as [|ch l IH]; intros arts idx w HF.
  - apply Forall2_nil_inv_l in HF as ->. simpl.
    unfold rounds_obs; simpl. by rewrite extend_nil.
  - apply Forall2_cons_inv_l in HF as (a & arts' & Ha & HF & ->).
    cbn [for_enumerate zip zip_with]. unfold bind at 1.
    rewrite (process_chapter_ok _ _ _ _ a) by done.
    rewrite (IH arts') by done.
    by rewrite extend_extend, rounds_obs_cons.
Qed.

(** The loop up to the first chapter on which a stage fails. *)
Lemma for_enumerate_fail (ct : string) (total : Z) (pre : list Chapter) :
  forall (arts : list Artifacts) (c : Chapter) (post : list Chapter)
         (e : exn) (idx : Z) (w : World),
    Forall2 (produces ct) pre arts ->
    pipeline c ct = inl e ->
    exists calls,
      stage_calls_of c calls /\
      for_enumerate idx (pre ++ c :: post) (process_chapter ct total) w
      = (Raise e,
         extend w (rounds_obs ct total idx (zip pre arts)
                   ++ WsSend (Processing (idx + Z.of_nat (length pre) + 1)
                                total) :: calls)).
Proof.
  induction pre as [|ch pre IH]; intros arts c post e idx w HF He.
  - apply Forall2_nil_inv_l in HF as ->.
    destruct (process_chapter_fail ct total idx c e w He) as (calls & Hc & E).
    exists calls. split; [done|].
    cbn [app for_enumerate]. unfold bind at 1. rewrite E.
    unfold rounds_obs; simpl. by rewrite Z.add_0_r.
  - apply Forall2_cons_inv_l in HF as (a & arts' & Ha & HF & ->).
    destruct (IH arts' c post e (idx + 1)
                (extend w (chapter_obs ct total idx ch a)) HF He)
      as (calls & Hc & E).
    exists calls. split; [done|].
    cbn [app for_enumerate zip zip_with]. unfold bind at 1.
    rewrite (process_chapter_ok _ _ _ _ a) by done.
    rewrite E, extend_extend, rounds_obs_cons.
    rewrite <- app_assoc, length_cons.
    by replace (idx + 1 + Z.of_nat (length pre) + 1)
      with (idx + Z.of_nat (S (length pre)) + 1) by lia.
Qed.

(** ** Slices *)

Lemma adjust_index_bounds (n i : Z) :
  0 <= n -> 0 <= adjust_index n i <= n.
Proof. unfold adjust_index. destruct (Z.ltb_spec i 0); lia. Qed.

Lemma py_slice_length {A} (l : list A) (i j : Z) :
  Z.of_nat (length (py_slice l i j))
  = Z.max 0 (adjust_index (Z.of_nat (length l)) j
             - adjust_index (Z.of_nat (length l)) i).
Proof.
  unfold py_slice.
  pose proof (adjust_index_bounds (Z.of_nat (length l)) i ltac:(lia)).
  pose proof (adjust_index_bounds (Z.of_nat (length l)) j ltac:(lia)).
  rewrite length_take, length_drop. lia.
Qed.

(** A negative bound counts from the end of the list. *)
Lemma adjust_index_negative (n i : Z) :
  0 <= n -> i < 0 -> adjust_index n i = adjust_index n (Z.max 0 (n + i)).
Proof.
  intros Hn Hi. unfold adjust_index.
  destruct (Z.ltb_spec i 0); [|lia].
  destruct (Z.ltb_spec (Z.max 0 (n + i)) 0); lia.
Qed.

Lemma py_slice_negative_start {A} (l : list A) (i j : Z) :
  i < 0 ->
  py_slice l i j = py_slice l (Z.max 0 (Z.of_nat (length l) + i)) j.
Proof.
  intros Hi. unfold py_slice.
  by rewrite <- (adjust_index_negative _ i) by lia.
Qed.

Lemma py_slice_negative_stop {A} (l : list A) (i j : Z) :
  j < 0 ->
  py_slice l i j = py_slice l i (Z.max 0 (Z.of_nat (length l) + j)).
Proof.
  intros Hj. unfold py_slice.
  by rewrite <- (adjust_index_negative _ j) by lia.
Qed.

(** ** Runs of [websocket_processing] *)

Lemma truthy_str_false (s : string) : truthy_str s = false <-> s = "".
Proof. by destruct s. Qed.

(** An empty task id. *)
Lemma ws_run_rejected (id ct : string) (s e : Z) (w : World) :
  truthy_str id = false ->
  websocket_processing id ct s e w
  = (Ok tt, extend w [WsClose 4003 (Some "Invalid task_id")]).
Proof. intros E. unfold websocket_processing. by rewrite E. Qed.

(** A task id the store does not hold. *)
Lemma ws_run_unknown (id ct : string) (s e : Z) (w : World) :
  truthy_str id = true -> db w !! id = None ->
  websocket_processing id ct s e w
  = (Ok tt, extend w [WsAccept; DbGetChapters id;
                      WsSend (Error (str (not_found id)));
                      WsClose 1000 None]).
Proof.
  intros E Hdb. unfold websocket_processing, get_chapters. rewrite E.
  autounfold with monad_ops. simpl. rewrite Hdb. simpl.
  by fold_extend.
Qed.

(** Every stage succeeds on every selected chapter. *)
Lemma ws_run_ok (id ct : string) (s e : Z) (w : World) (t : Task)
    (arts : list Artifacts) :
  truthy_str id = true -> db w !! id = Some t ->
  Forall2 (produces ct) (py_slice (task_chapters t) s (e + 1)) arts ->
  websocket_processing id ct s e w
  = (Ok tt,
     extend w
       ([WsAccept; DbGetChapters id]
        ++ rounds_obs ct
             (Z.of_nat (length (py_slice (task_chapters t) s (e + 1)))) 0
             (zip (py_slice (task_chapters t) s (e + 1)) arts)
        ++ [WsSend completed_event; WsClose 1000 None])).
Proof.
  intros E Hdb HF. unfold websocket_processing, get_chapters. rewrite E.
  cbn [negb]. unfold try_finally, try_except, ws_accept.
  unfold bind at 1. unfold log at 1.
  unfold bind at 1. unfold bind at 1. unfold log at 1.
  unfold bind at 1. unfold get_world at 1.
  cbn [emit db]. rewrite Hdb. unfold ret at 1.
  unfold bind at 1. rewrite (for_enumerate_ok _ _ _ arts) by done.
  unfold ws_send_json, ws_close, log. by fold_extend.
Qed.

(** A stage fails on chapter [c], the first one on which any does. *)
Lemma ws_run_fail (id ct : string) (s e : Z) (w : World) (t : Task)
    (pre : list Chapter) (arts : list Artifacts) (c : Chapter)
    (post : list Chapter) (err : exn) :
  truthy_str id = true -> db w !! id = Some t ->
  py_slice (task_chapters t) s (e + 1) = pre ++ c :: post ->
  Forall2 (produces ct) pre arts ->
  pipeline c ct = inl err ->
  exists calls,
    stage_calls_of c calls /\
    websocket_processing id ct s e w
    = (Ok tt,
       extend w
         ([WsAccept; DbGetChapters id]
          ++ rounds_obs ct (Z.of_nat (length (pre ++ c :: post))) 0
               (zip pre arts)
          ++ WsSend (Processing (Z.of_nat (length pre) + 1)
                       (Z.of_nat (length (pre ++ c :: post))))
             :: calls
          ++ [WsSend (Error (str err)); WsClose 1000 None])).
Proof.
  intros E Hdb Hsel HF Herr.
  destruct (for_enumerate_fail ct (Z.of_nat (length (pre ++ c :: post)))
              pre arts c post err 0
              (extend w [WsAccept; DbGetChapters id]) HF Herr)
    as (calls & Hcalls & Hrun).
  exists calls. split; [done|].
  unfold websocket_processing, get_chapters. rewrite E.
  cbn [negb]. unfold try_finally, try_except, ws_accept.
  unfold bind at 1. unfold log at 1.
  unfold bind at 1. unfold bind at 1. unfold log at 1.
  unfold bind at 1. unfold get_world at 1.
  cbn [emit db]. rewrite Hdb. unfold ret at 1.
  unfold bind at 1. rewrite Hsel. fold_extend. rewrite Hrun.
  cbn [List.find fst snd any_Exception].
  unfold ws_send_json, ws_close, log. fold_extend.
  rewrite Z.add_0_l. do 2 f_equal.
  rewrite <- ?app_assoc. by simpl.
Qed.

(** Every list of chapters either succeeds throughout or has a first chapter
    on which a stage fails. *)
Lemma first_failure (ct : string) (l : list Chapter) :
  (exists arts, Forall2 (produces ct) l arts) \/
  (exists pre arts c post err,
     l = pre ++ c :: post /\ Forall2 (produces ct) pre arts /\
     pipeline c ct = inl err).
Proof.
  induction l as [|ch l IH].
  - left. by exists [].
  - destruct (pipeline ch ct) as [err|v] eqn:Hp.
    + right. by exists [], [], ch, l, err.
    + apply pipeline_produces in Hp as (a & Ha & _).
      destruct IH as [(arts & HF)|(pre & arts & c & post & err & -> & HF & He)].
      * left. exists (a :: arts). by constructor.
      * right. exists (ch :: pre), (a :: arts), c, post, err.
        split; [done|]. split; [by constructor|done].
Qed.

Lemma videos_produced (ct : string) (l : list Chapter) (videos : list string) :
  Forall2 (fun ch v => pipeline ch ct = inr v) l videos ->
  exists arts, Forall2 (produces ct) l arts /\
               map a_video_path arts = videos.
Proof.
  induction 1 as [|ch v l videos Hp _ (arts & HF & Hv)].
  - by exists [].
  - apply pipeline_produces in Hp as (a & Ha & <-).
    exists (a :: arts). split; [by constructor|]. simpl. by rewrite Hv.
Qed.

(** The events of successful rounds: one pair per chapter. *)
Lemma sent_events_rounds (ct : string) (total : Z)
    (l : list (Chapter * Artifacts)) :
  forall idx : Z,
    sent_events (rounds_obs ct total idx l)
    = concat (imap (fun i p =>
                      [Processing (idx + Z.of_nat i + 1) total;
                       ChapterComplete (a_video_path (snd p))
                         (title (fst p))]) l).
Proof.
  induction l as [|[ch a] l IH]; intros idx; [done|].
  rewrite rounds_obs_cons. unfold sent_events in *.
  rewrite omap_app, IH. rewrite imap_cons. cbn [concat fst snd].
  simpl. rewrite Z.add_0_r. do 3 f_equal. apply imap_ext.
  intros i p _. simpl. do 2 f_equal. lia.
Qed.

Lemma scripts_requested_rounds (ct : string) (total : Z)
    (l : list (Chapter * Artifacts)) :
  forall idx : Z, scripts_requested (rounds_obs ct total idx l) = map fst l.
Proof.
  induction l as [|[ch a] l IH]; intros idx; [done|].
  rewrite rounds_obs_cons. unfold scripts_requested in *.
  rewrite omap_app, IH. done.
Qed.

Lemma stage_calls_not_sent (calls : list Obs) :
  forallb is_call calls = true -> sent_events calls = [].
Proof.
  induction calls as [|o calls IH]; [done|]. simpl.
  intros [Ho Hc]%andb_prop. unfold sent_events in *. simpl.
  rewrite IH by done. by destruct o.
Qed.

Lemma sent_events_app (l1 l2 : list Obs) :
  sent_events (l1 ++ l2) = sent_events l1 ++ sent_events l2.
Proof. apply omap_app. Qed.

Lemma scripts_requested_app (l1 l2 : list Obs) :
  scripts_requested (l1 ++ l2) = scripts_requested l1 ++ scripts_requested l2.
Proof. apply omap_app. Qed.

Lemma imap_zip_videos {B} (g : nat -> string * string -> B)
    (l : list Chapter) :
  forall arts : list Artifacts,
    imap (fun i p => g i (a_video_path (snd p), title (fst p))) (zip l arts)
    = imap g (zip (map a_video_path arts) (map title l)).
Proof.
  revert g. induction l as [|ch l IH]; intros g [|a arts]; try done.
  cbn [zip zip_with map]. rewrite !imap_cons. f_equal. apply (IH (g ∘ S)).
Qed.

(** The events of a run in which every stage succeeds on every selected
    chapter: a pair per chapter, numbered from 1, then "completed". *)
Lemma ws_ok_events (id ct : string) (s e : Z) (w : World) (t : Task)
    (videos : list string) :
  truthy_str id = true -> db w !! id = Some t ->
  Forall2 (fun ch v => pipeline ch ct = inr v)
    (py_slice (task_chapters t) s (e + 1)) videos ->
  sent_events (new_obs w (snd (websocket_processing id ct s e w)))
  = concat (imap (pair_events (Z.of_nat (length videos)))
              (zip videos
                 (map title (py_slice (task_chapters t) s (e + 1)))))
    ++ [completed_event].
Proof.
  intros E Hdb HF.
  pose proof (Forall2_length _ _ _ HF) as Hlen.
  destruct (videos_produced _ _ _ HF) as (arts & HA & <-).
  rewrite (ws_run_ok id ct s e w t arts) by done.
  cbn [snd]. rewrite new_obs_extend.
  rewrite !sent_events_app, sent_events_rounds.
  change (sent_events [WsAccept; DbGetChapters id]) with (@nil ProcessingEvent).
  cbn [app]. rewrite Hlen. f_equal. f_equal.
  by rewrite <- (imap_zip_videos
                   (pair_events (Z.of_nat (length (map a_video_path arts))))).
Qed.

(** ** The streaming endpoint: claims *)

(** C5.  A connection opened with an empty task id, the only kind of id the
    handler treats as invalid, is closed with code 4003 and reason
    "Invalid task_id"; that close is all that happens on the connection: it is
    not accepted and no event is sent. *)
Theorem empty_task_id_closed_4003 (id ct : string) (s e : Z) (w : World) :
  truthy_str id = false ->
  id = "" /\
  new_obs w (snd (websocket_processing id ct s e w))
  = [WsClose 4003 (Some "Invalid task_id")] /\
  sent_events (new_obs w (snd (websocket_processing id ct s e w))) = [].
Proof.
  intros E. split; [by apply truthy_str_false|].
  rewrite (ws_run_rejected id ct s e w E). cbn [snd].
  by rewrite new_obs_extend.
Qed.

(** C4.  For a non-empty task id under which nothing is stored, the
    connection is accepted, exactly one event is sent, the "error" event with
    the message of the failed lookup, and the connection is closed; that is
    all that happens on the socket. *)
Theorem unknown_task_single_error (id ct : string) (s e : Z) (w : World) :
  truthy_str id = true -> db w !! id = None ->
  ws_actions (new_obs w (snd (websocket_processing id ct s e w)))
  = [WsAccept; WsSend (Error (str (not_found id))); WsClose 1000 None] /\
  sent_events (new_obs w (snd (websocket_processing id ct s e w)))
  = [Error (str (not_found id))].
Proof.
  intros E Hdb. rewrite (ws_run_unknown id ct s e w E Hdb). cbn [snd].
  by rewrite new_obs_extend.
Qed.

(** C3.  If a stage raises on some chapter [c] of the selected range, the
    chapters before it having succeeded, then the events sent are the pairs of
    the chapters before [c], the "processing" event of [c] and one "error"
    event with the text of the exception; the error event is followed by the
    close of the connection and by nothing else; script generation was asked
    for the chapters up to [c] only.  And whatever the parameters and the
    outcome, the last thing the handler does is close the connection. *)
Theorem stage_failure_single_error_then_close :
  (forall (id ct : string) (s e : Z) (w : World) (t : Task)
          (pre : list Chapter) (videos : list string) (c : Chapter)
          (post : list Chapter) (err : exn),
      truthy_str id = true -> db w !! id = Some t ->
      py_slice (task_chapters t) s (e + 1) = pre ++ c :: post ->
      Forall2 (fun ch v => pipeline ch ct = inr v) pre videos ->
      pipeline c ct = inl err ->
      exists before,
        new_obs w (snd (websocket_processing id ct s e w))
        = before ++ [WsSend (Error (str err)); WsClose 1000 None] /\
        sent_events before
        = concat (imap (pair_events (Z.of_nat (length (pre ++ c :: post))))
                    (zip videos (map title pre)))
          ++ [Processing (Z.of_nat (length pre) + 1)
                (Z.of_nat (length (pre ++ c :: post)))] /\
        scripts_requested before = pre ++ [c]) /\
  (forall (id ct : string) (s e : Z) (w : World),
      exists before code reason,
        new_obs w (snd (websocket_processing id ct s e w))
        = before ++ [WsClose code reason]).
Proof.
  split.
  - intros id ct s e w t pre videos c post err E Hdb Hsel HF Herr.
    destruct (videos_produced _ _ _ HF) as (arts & HA & <-).
    destruct (ws_run_fail id ct s e w t pre arts c post err E Hdb Hsel HA Herr)
      as (calls & [Hcalls Hscripts] & ->).
    cbn [snd]. rewrite new_obs_extend.
    exists ([WsAccept; DbGetChapters id]
            ++ rounds_obs ct (Z.of_nat (length (pre ++ c :: post))) 0
                 (zip pre arts)
            ++ WsSend (Processing (Z.of_nat (length pre) + 1)
                         (Z.of_nat (length (pre ++ c :: post))))
               :: calls).
    split; [|split].
    + by norm_app.
    + rewrite !sent_events_app, sent_events_rounds.
      change (sent_events [WsAccept; DbGetChapters id])
        with (@nil ProcessingEvent).
      change (sent_events (WsSend ?ev :: calls)) with (ev :: sent_events calls).
      rewrite (stage_calls_not_sent calls Hcalls). cbn [app]. f_equal.
      by rewrite <- (imap_zip_videos
                       (pair_events (Z.of_nat (length (pre ++ c :: post))))).
    + rewrite !scripts_requested_app, scripts_requested_rounds.
      change (scripts_requested [WsAccept; DbGetChapters id])
        with (@nil Chapter).
      change (scripts_requested (?o :: calls)) with (scripts_requested calls).
      rewrite Hscripts. cbn [app]. rewrite fst_zip; [done|].
      apply Forall2_length in HA. lia.
  - intros id ct s e w.
    destruct (truthy_str id) eqn:E.
    2:{ rewrite (ws_run_rejected id ct s e w E). cbn [snd].
        rewrite new_obs_extend. by exists [], 4003, (Some "Invalid task_id"). }
    destruct (db w !! id) as [t|] eqn:Hdb.
    2:{ rewrite (ws_run_unknown id ct s e w E Hdb). cbn [snd].
        rewrite new_obs_extend. by eexists [_; _; _], 1000, None. }
    destruct (first_failure ct (py_slice (task_chapters t) s (e + 1)))
      as [(arts & HA)|(pre & arts & c & post & err & Hsel & HA & Herr)].
    + rewrite (ws_run_ok id ct s e w t arts E Hdb HA). cbn [snd].
      rewrite new_obs_extend.
      exists ([WsAccept; DbGetChapters id]
              ++ rounds_obs ct
                   (Z.of_nat (length (py_slice (task_chapters t) s (e + 1))))
                   0 (zip (py_slice (task_chapters t) s (e + 1)) arts)
              ++ [WsSend completed_event]), 1000, None.
      by norm_app.
    + destruct (ws_run_fail id ct s e w t pre arts c post err
                  E Hdb Hsel HA Herr) as (calls & _ & ->).
      cbn [snd]. rewrite new_obs_extend.
      exists ([WsAccept; DbGetChapters id]
              ++ rounds_obs ct (Z.of_nat (length (pre ++ c :: post))) 0
                   (zip pre arts)
              ++ WsSend (Processing (Z.of_nat (length pre) + 1)
                           (Z.of_nat (length (pre ++ c :: post))))
                 :: calls ++ [WsSend (Error (str err))]), 1000, None.
      by norm_app.
Qed.

(** C1, amended.  For a stored task and a range that lies inside its list of
    chapters ([0 <= start_chapter <= end_chapter + 1 <= n]), if every stage
    succeeds on every selected chapter, the events sent are exactly
    [end_chapter - start_chapter + 1] pairs of "processing" and
    "chapter_complete", the chapter numbers running 1, 2, ..., followed by one
    "completed" event and nothing else. *)
Theorem pairs_for_range_inside_list (id ct : string) (s e : Z) (w : World)
    (t : Task) (videos : list string) :
  truthy_str id = true -> db w !! id = Some t ->
  0 <= s -> s <= e + 1 -> e + 1 <= Z.of_nat (length (task_chapters t)) ->
  Forall2 (fun ch v => pipeline ch ct = inr v)
    (py_slice (task_chapters t) s (e + 1)) videos ->
  Z.of_nat (length videos) = e - s + 1 /\
  sent_events (new_obs w (snd (websocket_processing id ct s e w)))
  = concat (imap (pair_events (e - s + 1))
              (zip videos
                 (map title (py_slice (task_chapters t) s (e + 1)))))
    ++ [completed_event].
Proof.
  intros E Hdb Hs Hse Hen HF.
  assert (Z.of_nat (length videos) = e - s + 1) as Hlen.
  { rewrite <- (Forall2_length _ _ _ HF), py_slice_length.
    unfold adjust_index.
    destruct (Z.ltb_spec s 0); [lia|].
    destruct (Z.ltb_spec (e + 1) 0); lia. }
  split; [done|].
  rewrite (ws_ok_events id ct s e w t videos) by done.
  by rewrite Hlen.
Qed.

(** C8.  On a stored task, the handler's observations are: accept, the lookup,
    then for each chapter it completes the eight observations of
    [chapter_obs], that is the "processing" event, script generation on the
    chapter and the content type, the voiceover on that script, the subtitles
    on that audio, the image on the script and the content type, the video
    merge on script, audio, subtitles and image, the "chapter_complete" event
    with that video's path and the chapter's title, and the pause; after
    them either "completed" (every selected chapter was completed) or the
    round of the first chapter on which a stage fails, which ends in the
    "error" event; and the close. *)
Theorem stages_in_order_per_chapter (id ct : string) (s e : Z) (w : World)
    (t : Task) :
  truthy_str id = true -> db w !! id = Some t ->
  exists (completed : list Chapter) (arts : list Artifacts) (rest : list Obs),
    Forall2 (produces ct) completed arts /\
    new_obs w (snd (websocket_processing id ct s e w))
    = [WsAccept; DbGetChapters id]
      ++ rounds_obs ct
           (Z.of_nat (length (py_slice (task_chapters t) s (e + 1)))) 0
           (zip completed arts)
      ++ rest /\
    ((completed = py_slice (task_chapters t) s (e + 1) /\
      rest = [WsSend completed_event; WsClose 1000 None]) \/
     (exists c post err calls,
        py_slice (task_chapters t) s (e + 1) = completed ++ c :: post /\
        pipeline c ct = inl err /\
        stage_calls_of c calls /\
        rest = WsSend (Processing (Z.of_nat (length completed) + 1)
                         (Z.of_nat (length (py_slice (task_chapters t) s
                                              (e + 1)))))
               :: calls ++ [WsSend (Error (str err)); WsClose 1000 None])).
Proof.
  intros E Hdb.
  destruct (first_failure ct (py_slice (task_chapters t) s (e + 1)))
    as [(arts & HA)|(pre & arts & c & post & err & Hsel & HA & Herr)].
  - exists (py_slice (task_chapters t) s (e + 1)), arts,
      [WsSend completed_event; WsClose 1000 None].
    split; [done|]. split; [|by left].
    rewrite (ws_run_ok id ct s e w t arts E Hdb HA). cbn [snd].
    by rewrite new_obs_extend.
  - destruct (ws_run_fail id ct s e w t pre arts c post err
                E Hdb Hsel HA Herr) as (calls & Hcalls & Hrun).
    exists pre, arts. eexists. split; [done|]. split.
    + rewrite Hrun. cbn [snd]. rewrite new_obs_extend, Hsel. reflexivity.
    + right. exists c, post, err, calls. by rewrite Hsel.
Qed.

(** C9, amended.  The handler selects the Python slice
    [chapters[start_chapter : end_chapter + 1]] and never rejects a range: if
    every stage succeeds on the selected chapters, the events are one pair per
    chapter of the slice, each "processing" event reporting the length of the
    slice as [total_chapters], then "completed".  For [0 <= start_chapter] and
    [-1 <= end_chapter] the number of pairs is
    [max 0 (min n (end_chapter + 1) - start_chapter)]; a negative bound of the
    slice counts from the end of the list; and when [n <= start_chapter] the
    only event is "completed". *)
Theorem range_is_python_slice (id ct : string) (s e : Z) (w : World)
    (t : Task) (videos : list string) :
  truthy_str id = true -> db w !! id = Some t ->
  Forall2 (fun ch v => pipeline ch ct = inr v)
    (py_slice (task_chapters t) s (e + 1)) videos ->
  let n := Z.of_nat (length (task_chapters t)) in
  let sent :=
    sent_events (new_obs w (snd (websocket_processing id ct s e w))) in
  sent = concat (imap (pair_events (Z.of_nat (length videos)))
                   (zip videos
                      (map title (py_slice (task_chapters t) s (e + 1)))))
         ++ [completed_event] /\
  (0 <= s -> -1 <= e ->
   Z.of_nat (length videos) = Z.max 0 (Z.min n (e + 1) - s)) /\
  (s < 0 ->
   py_slice (task_chapters t) s (e + 1)
   = py_slice (task_chapters t) (Z.max 0 (n + s)) (e + 1)) /\
  (e + 1 < 0 ->
   py_slice (task_chapters t) s (e + 1)
   = py_slice (task_chapters t) s (Z.max 0 (n + (e + 1)))) /\
  (n <= s -> videos = [] /\ sent = [completed_event]).
Proof.
  intros E Hdb HF n sent.
  assert (sent = concat (imap (pair_events (Z.of_nat (length videos)))
                   (zip videos
                      (map title (py_slice (task_chapters t) s (e + 1)))))
                 ++ [completed_event]) as Hsent
    by (by apply ws_ok_events).
  pose proof (Forall2_length _ _ _ HF) as Hlen.
  pose proof (py_slice_length (task_chapters t) s (e + 1)) as Hpy.
  fold n in Hpy. rewrite Hlen in Hpy.
  split; [done|]. split; [|split; [|split]].
  - intros Hs He. rewrite Hpy. unfold adjust_index.
    destruct (Z.ltb_spec s 0); [lia|].
    destruct (Z.ltb_spec (e + 1) 0); lia.
  - apply py_slice_negative_start.
  - apply py_slice_negative_stop.
  - intros Hn.
    assert (videos = []) as ->.
    { apply length_zero_iff_nil.
      pose proof (adjust_index_bounds n (e + 1) ltac:(lia)).
      revert Hpy. unfold adjust_index at 2.
      destruct (Z.ltb_spec s 0); lia. }
    split; [done|]. by rewrite Hsent.
Qed.

(** ** Runs of [upload_file] *)

Lemma present_after_insert (m : gmap string blob) (p : string) (b : blob) :
  bool_decide (is_Some (<[p := b]> m !! p)) = true.
Proof. apply bool_decide_eq_true_2. rewrite lookup_insert_eq. by eexists. Qed.

Lemma absent_after_delete (m : gmap string blob) (p : string) :
  bool_decide (is_Some (delete p m !! p)) = false.
Proof.
  apply bool_decide_eq_false_2. rewrite lookup_delete_eq. by intros [? ?].
Qed.

(** Reduction of the monad's plumbing only: the maps stay folded. *)
Ltac red_step :=
  cbn [fst snd fs db uuids temp_path trace negb List.find any_Exception
       is_HTTPException is_IOError emit with_fs with_db with_uuids
       with_temp_path extend left_by_upload save_failure].

Ltac run_upload :=
  unfold upload_file, os_path_exists, os_remove;
  autounfold with monad_ops; red_step.

Lemma world_ext (w1 w2 : World) :
  fs w1 = fs w2 -> db w1 = db w2 -> uuids w1 = uuids w2 ->
  temp_path w1 = temp_path w2 -> trace w1 = trace w2 -> w1 = w2.
Proof. destruct w1, w2; simpl; congruence. Qed.

(** Two outcomes are the same: the same result, and worlds that agree field
    by field. *)
Ltac world_eq :=
  apply (f_equal2 pair); [reflexivity|];
  apply world_ext; red_step; norm_app; reflexivity.

Ltac map_step :=
  repeat first
    [ rewrite present_after_insert | rewrite absent_after_delete
    | rewrite lookup_insert_eq | rewrite delete_insert_eq
    | progress red_step ].

(** No file name: 400, and nothing but the close of the upload. *)
Lemma upload_no_name (f : UploadFile) (w : World) :
  truthy (filename f) = false ->
  upload_file f w
  = (Raise (HTTPException 400 "No file name provided"),
     left_by_upload w (fs w) None [FileClose]).
Proof. intros E. run_upload. rewrite E. red_step. world_eq. Qed.

(** A named file over the limit: 413, and nothing but the close. *)
Lemma upload_too_large (f : UploadFile) (w : World) :
  truthy (filename f) = true -> blob_len (file f) > max_size ->
  upload_file f w
  = (Raise (HTTPException 413 "File too large. Maximum size is 100MB"),
     left_by_upload w (fs w) None [FileClose]).
Proof.
  intros E Hs. run_upload. rewrite E. red_step.
  destruct (Z.gtb_spec (blob_len (file f)) max_size); [|lia]. world_eq.
Qed.

(** [open] raises. *)
Lemma upload_open_fails (f : UploadFile) (w : World) (e : exn) :
  valid_upload f -> open_error (upload_path f) = Some e ->
  upload_file f w
  = (Raise (save_failure e),
     left_by_upload w (delete (upload_path f) (fs w))
       (Some (upload_path f))
       (FsOpen (upload_path f) :: FileClose
        :: if bool_decide (is_Some (fs w !! upload_path f))
           then [FsRemove (upload_path f)] else [])).
Proof.
  intros [E Hs] Ho. run_upload. rewrite E. red_step.
  destruct (Z.gtb_spec (blob_len (file f)) max_size); [lia|]. red_step.
  rewrite Ho. red_step.
  destruct (bool_decide (is_Some (fs w !! upload_path f))) eqn:Hfs.
  - destruct e; red_step; repeat (rewrite Hfs; simpl); world_eq.
  - pose proof (bool_decide_eq_false_1 _ Hfs) as Hnone.
    rewrite (delete_id (fs w) (upload_path f))
      by (by apply eq_None_not_Some).
    destruct e; red_step; repeat (rewrite Hfs; simpl); world_eq.
Qed.

(** [write] raises: the file [open] created is removed. *)
Lemma upload_write_fails (f : UploadFile) (w : World) (e : exn) :
  valid_upload f -> open_error (upload_path f) = None ->
  write_error (upload_path f) (file f) = Some e ->
  upload_file f w
  = (Raise (save_failure e),
     left_by_upload w (delete (upload_path f) (fs w))
       (Some (upload_path f))
       [FsOpen (upload_path f); FsWrite (upload_path f); FileClose;
        FsRemove (upload_path f)]).
Proof.
  intros [E Hs] Ho Hw. run_upload. rewrite E. red_step.
  destruct (Z.gtb_spec (blob_len (file f)) max_size); [lia|]. red_step.
  rewrite Ho. red_step. rewrite Hw. red_step.
  destruct e; map_step; world_eq.
Qed.

(** Extraction raises: the handler removes the file and answers 422. *)
Lemma upload_process_fails (f : UploadFile) (w : World) (e : exn) :
  valid_upload f -> open_error (upload_path f) = None ->
  write_error (upload_path f) (file f) = None ->
  process_file (upload_path f) (Some (file f)) = inl e ->
  upload_file f w
  = (Raise (HTTPException 422 ("Error processing file: " +:+ str e)),
     left_by_upload w (delete (upload_path f) (fs w))
       (Some (upload_path f))
       [FsOpen (upload_path f); FsWrite (upload_path f);
        CallProcessFile (upload_path f); FsRemove (upload_path f);
        FileClose]).
Proof.
  intros [E Hs] Ho Hw Hp. run_upload. rewrite E. red_step.
  destruct (Z.gtb_spec (blob_len (file f)) max_size); [lia|]. red_step.
  rewrite Ho. red_step. rewrite Hw. red_step.
  rewrite lookup_insert_eq, Hp. map_step.
  world_eq.
Qed.

(** Segmentation raises: the same. *)
Lemma upload_subjects_fails (f : UploadFile) (w : World) (text : string)
    (e : exn) :
  valid_upload f -> open_error (upload_path f) = None ->
  write_error (upload_path f) (file f) = None ->
  process_file (upload_path f) (Some (file f)) = inr text ->
  generact_list_of_subject text = inl e ->
  upload_file f w
  = (Raise (HTTPException 422 ("Error processing file: " +:+ str e)),
     left_by_upload w (delete (upload_path f) (fs w))
       (Some (upload_path f))
       [FsOpen (upload_path f); FsWrite (upload_path f);
        CallProcessFile (upload_path f); CallSubjects text;
        FsRemove (upload_path f); FileClose]).
Proof.
  intros [E Hs] Ho Hw Hp Hg. run_upload. rewrite E. red_step.
  destruct (Z.gtb_spec (blob_len (file f)) max_size); [lia|]. red_step.
  rewrite Ho. red_step. rewrite Hw. red_step.
  rewrite lookup_insert_eq, Hp. red_step. rewrite Hg. map_step.
  world_eq.
Qed.

(** Everything succeeds: the task is stored under a new id and returned. *)
Lemma upload_succeeds (f : UploadFile) (w : World) (text : string)
    (titles : list string) :
  valid_upload f -> open_error (upload_path f) = None ->
  write_error (upload_path f) (file f) = None ->
  process_file (upload_path f) (Some (file f)) = inr text ->
  generact_list_of_subject text = inr titles ->
  upload_file f w
  = (Ok {| task_id := uuid4_str (uuids w); chapters := titles |},
     {| fs := delete (upload_path f) (fs w);
        db := <[uuid4_str (uuids w) :=
                  {| task_filename := filename f;
                     task_chapters := map Build_Chapter titles |}]> (db w);
        uuids := S (uuids w);
        temp_path := Some (upload_path f);
        trace := trace w ++
          [FsOpen (upload_path f); FsWrite (upload_path f);
           CallProcessFile (upload_path f); CallSubjects text;
           Uuid4 (uuids w); DbStoreTask (uuid4_str (uuids w));
           FileClose; FsRemove (upload_path f)] |}).
Proof.
  intros [E Hs] Ho Hw Hp Hg. run_upload. rewrite E. red_step.
  destruct (Z.gtb_spec (blob_len (file f)) max_size); [lia|]. red_step.
  rewrite Ho. red_step. rewrite Hw. red_step.
  rewrite lookup_insert_eq, Hp. red_step. rewrite Hg. map_step.
  world_eq.
Qed.

(** Every call of [upload_file] is of one of four kinds. *)
Lemma upload_cases (f : UploadFile) (w : World) :
  (truthy (filename f) = false /\
   upload_file f w
   = (Raise (HTTPException 400 "No file name provided"),
      left_by_upload w (fs w) None [FileClose])) \/
  (truthy (filename f) = true /\ blob_len (file f) > max_size /\
   upload_file f w
   = (Raise (HTTPException 413 "File too large. Maximum size is 100MB"),
      left_by_upload w (fs w) None [FileClose])) \/
  (valid_upload f /\
   exists e obs,
     stores_nothing obs = true /\
     upload_file f w
     = (Raise e,
        left_by_upload w (delete (upload_path f) (fs w))
          (Some (upload_path f)) obs)) \/
  (valid_upload f /\
   exists text titles,
     open_error (upload_path f) = None /\
     write_error (upload_path f) (file f) = None /\
     process_file (upload_path f) (Some (file f)) = inr text /\
     generact_list_of_subject text = inr titles /\
     upload_file f w
     = (Ok {| task_id := uuid4_str (uuids w); chapters := titles |},
        stored_by_upload f w text titles)).
Proof.
  destruct (truthy (filename f)) eqn:E.
  2:{ left. split; [done|]. by apply upload_no_name. }
  destruct (Z.le_gt_cases (blob_len (file f)) max_size) as [Hs|Hs].
  2:{ right; left. split; [done|]. split; [lia|].
      apply upload_too_large; [done|lia]. }
  assert (valid_upload f) as Hv by done.
  right; right.
  destruct (open_error (upload_path f)) as [e|] eqn:Ho.
  { left. split; [done|]. eexists _, _.
    split; [|by apply upload_open_fails].
    by destruct (bool_decide (is_Some (fs w !! upload_path f))). }
  destruct (write_error (upload_path f) (file f)) as [e|] eqn:Hw.
  { left. split; [done|]. eexists _, _.
    split; [|by apply upload_write_fails]. done. }
  destruct (process_file (upload_path f) (Some (file f))) as [e|text] eqn:Hp.
  { left. split; [done|]. eexists _, _.
    split; [|by apply upload_process_fails]. done. }
  destruct (generact_list_of_subject text) as [e|titles] eqn:Hg.
  { left. split; [done|]. eexists _, _.
    split; [|by eapply upload_subjects_fails]. done. }
  right. split; [done|]. exists text, titles.
  do 4 (split; [done|]). by apply upload_succeeds.
Qed.

Lemma new_obs_left_by_upload (w : World) (files : gmap string blob)
    (local : option string) (obs : list Obs) :
  new_obs w (left_by_upload w files local obs) = obs.
Proof. unfold new_obs; simpl. by rewrite drop_app_length. Qed.

Lemma new_obs_stored_by_upload (f : UploadFile) (w : World) (text : string)
    (titles : list string) :
  new_obs w (stored_by_upload f w text titles)
  = [FsOpen (upload_path f); FsWrite (upload_path f);
     CallProcessFile (upload_path f); CallSubjects text;
     Uuid4 (uuids w); DbStoreTask (uuid4_str (uuids w));
     FileClose; FsRemove (upload_path f)].
Proof. unfold new_obs; simpl. by rewrite drop_app_length. Qed.

(** ** The upload endpoint: claims *)

(** C7, amended.  [upload_file] answers 400 when the file has no name; it
    answers 413 when the file has a name and its size is strictly over
    [100 * 1024 * 1024] bytes; and whenever the size is over that limit no
    task is stored: [store_task] is not called and the store is as it was. *)
Theorem upload_rejects_unnamed_then_oversize (f : UploadFile) (w : World) :
  max_size = 100 * 1024 * 1024 /\
  (truthy (filename f) = false ->
   fst (upload_file f w) = Raise (HTTPException 400 "No file name provided")) /\
  (truthy (filename f) = true -> blob_len (file f) > max_size ->
   fst (upload_file f w)
   = Raise (HTTPException 413 "File too large. Maximum size is 100MB")) /\
  (blob_len (file f) > max_size ->
   db (snd (upload_file f w)) = db w /\
   stores_nothing (new_obs w (snd (upload_file f w))) = true).
Proof.
  split; [done|]. split; [|split].
  - intros E. by rewrite upload_no_name.
  - intros E Hs. by rewrite upload_too_large.
  - intros Hs. destruct (truthy (filename f)) eqn:E.
    + rewrite upload_too_large by done. cbn [snd].
      by rewrite new_obs_left_by_upload.
    + rewrite upload_no_name by done. cbn [snd].
      by rewrite new_obs_left_by_upload.
Qed.

(** C6.  Whatever the outcome of [upload_file], the file at
    [./videos/tmp/<filename>] is not on disk afterwards once the request got
    as far as naming it (a file with a name and within the size limit); a
    request rejected before that opens and writes nothing and leaves the disk
    as it was.  So the path is free after every request that found it free or
    wrote to it. *)
Theorem temporary_file_removed (f : UploadFile) (w : World) :
  (valid_upload f ->
   fs (snd (upload_file f w)) = delete (upload_path f) (fs w)) /\
  (~ valid_upload f ->
   fs (snd (upload_file f w)) = fs w /\
   writes_nothing (new_obs w (snd (upload_file f w))) = true) /\
  (valid_upload f \/ fs w !! upload_path f = None ->
   fs (snd (upload_file f w)) !! upload_path f = None).
Proof.
  destruct (upload_cases f w)
    as [[E ->]|[(E & Hs & ->)|[(Hv & e & obs & _ & ->)
       |(Hv & text & titles & _ & _ & _ & _ & ->)]]];
    cbn [snd]; rewrite ?new_obs_left_by_upload.
  - split; [|split]; [by intros [? _]; congruence|done|].
    intros [[? _]|?]; [congruence|done].
  - split; [|split]; [intros [_ ?]; lia|done|].
    intros [[_ ?]|?]; [lia|done].
  - split; [done|]. split; [done|]. intros _. simpl. apply lookup_delete_eq.
  - split; [done|]. split; [done|]. intros _. simpl. apply lookup_delete_eq.
Qed.

(** C10.  When [upload_file] fails, with whatever status (400, 413, 422, or
    the 500 of a file that could not be saved), [store_task] was not called
    and no task id was drawn: the store and the count of ids are as they
    were.  A task is stored only by a call that returns normally, after
    extraction and segmentation have succeeded, under the returned id and with
    the segmented titles. *)
Theorem failed_upload_stores_nothing (f : UploadFile) (w : World) :
  (forall e : exn,
     fst (upload_file f w) = Raise e ->
     db (snd (upload_file f w)) = db w /\
     uuids (snd (upload_file f w)) = uuids w /\
     stores_nothing (new_obs w (snd (upload_file f w))) = true) /\
  (forall id : string,
     In (DbStoreTask id) (new_obs w (snd (upload_file f w))) ->
     exists text titles,
       process_file (upload_path f) (Some (file f)) = inr text /\
       generact_list_of_subject text = inr titles /\
       fst (upload_file f w) = Ok {| task_id := id; chapters := titles |} /\
       db (snd (upload_file f w)) !! id
       = Some {| task_filename := filename f;
                 task_chapters := map Build_Chapter titles |}).
Proof.
  destruct (upload_cases f w)
    as [[E ->]|[(E & Hs & ->)|[(Hv & e' & obs & Hobs & ->)
       |(Hv & text & titles & _ & _ & Hp & Hg & ->)]]];
    cbn [fst snd];
    rewrite ?new_obs_left_by_upload, ?new_obs_stored_by_upload.
  - split; [done|]. intros id [?|[]]; done.
  - split; [done|]. intros id [?|[]]; done.
  - split; [done|]. intros id Hin.
    unfold stores_nothing in Hobs. rewrite forallb_forall in Hobs.
    by specialize (Hobs _ Hin).
  - split; [done|]. intros id Hin.
    assert (id = uuid4_str (uuids w)) as ->.
    { simpl in Hin. repeat destruct Hin as [Hin|Hin]; try done.
      by injection Hin. }
    exists text, titles. do 3 (split; [done|]).
    simpl. apply lookup_insert_eq.
Qed.

(** C2.  When extraction and segmentation succeed on a named file within the
    size limit, and the file could be saved, [upload_file] returns a response
    whose chapters are the titles segmentation returned, in that order, and
    [get_chapters] on the returned task id then yields chapters with those
    titles in that order.  And every response [upload_file] returns is of that
    kind. *)
Theorem upload_then_get_chapters :
  (forall (f : UploadFile) (w : World) (text : string) (titles : list string),
      valid_upload f ->
      open_error (upload_path f) = None ->
      write_error (upload_path f) (file f) = None ->
      process_file (upload_path f) (Some (file f)) = inr text ->
      generact_list_of_subject text = inr titles ->
      exists resp chs,
        fst (upload_file f w) = Ok resp /\
        chapters resp = titles /\
        fst (get_chapters (task_id resp) (snd (upload_file f w))) = Ok chs /\
        map title chs = titles) /\
  (forall (f : UploadFile) (w : World) (resp : UploadResponse),
      fst (upload_file f w) = Ok resp ->
      valid_upload f /\
      exists text chs,
        process_file (upload_path f) (Some (file f)) = inr text /\
        generact_list_of_subject text = inr (chapters resp) /\
        fst (get_chapters (task_id resp) (snd (upload_file f w))) = Ok chs /\
        map title chs = chapters resp).
Proof.
  assert (forall (f : UploadFile) (w : World) (text : string)
                 (titles : list string),
            fst (get_chapters (uuid4_str (uuids w))
                   (stored_by_upload f w text titles))
            = Ok (map Build_Chapter titles)) as Hget.
  { intros f w text titles. unfold get_chapters.
    autounfold with monad_ops. cbn [db emit stored_by_upload].
    by rewrite lookup_insert_eq. }
  assert (forall titles : list string,
            map title (map Build_Chapter titles) = titles) as Htitles.
  { intros titles. rewrite map_map. apply map_id. }
  split.
  - intros f w text titles Hv Ho Hw Hp Hg.
    rewrite (upload_succeeds f w text titles) by done. cbn [fst snd].
    eexists _, _. split; [done|]. split; [done|].
    split; [apply (Hget f w text titles)|apply Htitles].
  - intros f w resp.
    destruct (upload_cases f w)
      as [[E ->]|[(E & Hs & ->)|[(Hv & e' & obs & Hobs & ->)
         |(Hv & text & titles & _ & _ & Hp & Hg & ->)]]];
      cbn [fst snd]; try done.
    intros [= <-]. split; [done|].
    exists text, (map Build_Chapter titles). cbn [task_id chapters].
    split; [done|]. split; [done|].
    split; [apply (Hget f w text titles)|apply Htitles].
Qed.

(** ** Every run of [websocket_processing], by kind *)

Ltac stages_below :=
  let j := fresh "j" in
  let Hj := fresh "Hj" in
  intros j Hj;
  do 5 (destruct j as [|j]; [first [lia | simpl; congruence]|]); lia.

(** A failing pipeline fails at one of its five stages. *)
Lemma pipeline_fails_at (ct : string) (ch : Chapter) (e : exn) :
  pipeline ch ct = inl e -> exists a k, fails_at k ct ch a e.
Proof.
  unfold pipeline, fails_at.
  destruct (generate_script ch ct) as [e1|sc] eqn:E1.
  { intros [= ->]. exists (Build_Artifacts "" "" "" "" ""), 1%nat.
    split; [simpl; congruence|stages_below]. }
  destruct (generate_voiceover sc) as [e1|au] eqn:E2.
  { intros [= ->]. exists (Build_Artifacts sc "" "" "" ""), 2%nat.
    split; [simpl; congruence|stages_below]. }
  destruct (generate_subtitles au) as [e1|su] eqn:E3.
  { intros [= ->]. exists (Build_Artifacts sc au "" "" ""), 3%nat.
    split; [simpl; congruence|stages_below]. }
  destruct (generate_image sc ct) as [e1|im] eqn:E4.
  { intros [= ->]. exists (Build_Artifacts sc au su "" ""), 4%nat.
    split; [simpl; congruence|stages_below]. }
  intros E5. exists (Build_Artifacts sc au su im ""), 5%nat.
  split; [simpl; congruence|stages_below].
Qed.

(** The round of a chapter on which stage [k] fails: the "processing" event
    and the first [k] stage calls. *)
Lemma process_chapter_fails_at (ct : string) (total idx : Z) (ch : Chapter)
    (a : Artifacts) (k : nat) (e : exn) (w : World) :
  fails_at k ct ch a e ->
  process_chapter ct total idx ch w
  = (Raise e,
     extend w (WsSend (Processing (idx + 1) total)
               :: take k (stage_calls ct ch a))).
Proof.
  intros [Hk Hbelow].
  assert (forall j, (1 <= j < k)%nat ->
                    stage_outcome j ct ch a = Some (inr (stage_artifact j a)))
    as Hj by done.
  unfold process_chapter. autounfold with monad_ops. simpl.
  destruct k as [|[|[|[|[|[|k]]]]]]; simpl in Hk; try done.
  - injection Hk as ->. by fold_extend.
  - injection Hk as Hk.
    pose proof (Hj 1%nat ltac:(lia)) as [= ->].
    simpl. rewrite Hk. by fold_extend.
  - injection Hk as Hk.
    pose proof (Hj 1%nat ltac:(lia)) as [= ->].
    pose proof (Hj 2%nat ltac:(lia)) as [= H2]. simpl. rewrite H2. simpl.
    rewrite Hk. by fold_extend.
  - injection Hk as Hk.
    pose proof (Hj 1%nat ltac:(lia)) as [= ->].
    pose proof (Hj 2%nat ltac:(lia)) as [= H2].
    pose proof (Hj 3%nat ltac:(lia)) as [= H3].
    simpl. rewrite H2. simpl. rewrite H3. simpl. rewrite Hk. by fold_extend.
  - injection Hk as Hk.
    pose proof (Hj 1%nat ltac:(lia)) as [= ->].
    pose proof (Hj 2%nat ltac:(lia)) as [= H2].
    pose proof (Hj 3%nat ltac:(lia)) as [= H3].
    pose proof (Hj 4%nat ltac:(lia)) as [= H4].
    simpl. rewrite H2. simpl. rewrite H3. simpl. rewrite H4. simpl.
    rewrite Hk. by fold_extend.
Qed.

(** The loop up to the chapter on which stage [k] fails. *)
Lemma for_enumerate_fails_at (ct : string) (total : Z) (pre : list Chapter) :
  forall (arts : list Artifacts) (c : Chapter) (post : list Chapter)
         (a : Artifacts) (k : nat) (e : exn) (idx : Z) (w : World),
    Forall2 (produces ct) pre arts ->
    fails_at k ct c a e ->
    for_enumerate idx (pre ++ c :: post) (process_chapter ct total) w
    = (Raise e,
       extend w (rounds_obs ct total idx (zip pre arts)
                 ++ WsSend (Processing (idx + Z.of_nat (length pre) + 1)
                              total)
                    :: take k (stage_calls ct c a))).
Proof.
  induction pre as [|ch pre IH]; intros arts c post a k e idx w HF He.
  - apply Forall2_nil_inv_l in HF as ->.
    cbn [app for_enumerate]. unfold bind at 1.
    rewrite (process_chapter_fails_at ct total idx c a k e w He).
    unfold rounds_obs; simpl. by rewrite Z.add_0_r.
  - apply Forall2_cons_inv_l in HF as (a' & arts' & Ha & HF & ->).
    cbn [app for_enumerate zip zip_with]. unfold bind at 1.
    rewrite (process_chapter_ok _ _ _ _ a') by done.
    rewrite (IH arts' c post a k e (idx + 1)) by done.
    rewrite extend_extend, rounds_obs_cons.
    rewrite <- app_assoc, length_cons.
    by replace (idx + 1 + Z.of_nat (length pre) + 1)
      with (idx + Z.of_nat (S (length pre)) + 1) by lia.
Qed.

(** Stage [k] fails on chapter [c], the first one on which any does. *)
Lemma ws_run_fails_at (id ct : string) (s e : Z) (w : World) (t : Task)
    (pre : list Chapter) (arts : list Artifacts) (c : Chapter)
    (post : list Chapter) (a : Artifacts) (k : nat) (err : exn) :
  truthy_str id = true -> db w !! id = Some t ->
  py_slice (task_chapters t) s (e + 1) = pre ++ c :: post ->
  Forall2 (produces ct) pre arts ->
  fails_at k ct c a err ->
  websocket_processing id ct s e w
  = (Ok tt,
     extend w
       (WsAccept :: DbGetChapters id
        :: (rounds_obs ct (Z.of_nat (length (pre ++ c :: post))) 0
              (zip pre arts)
            ++ WsSend (Processing (Z.of_nat (length pre) + 1)
                         (Z.of_nat (length (pre ++ c :: post))))
               :: take k (stage_calls ct c a)
            ++ [WsSend (Error (str err))])
        ++ [WsClose 1000 None])).
Proof.
  intros E Hdb Hsel HA Hk.
  unfold websocket_processing, get_chapters. rewrite E.
  cbn [negb]. unfold try_finally, try_except, ws_accept.
  unfold bind at 1. unfold log at 1.
  unfold bind at 1. unfold bind at 1. unfold log at 1.
  unfold bind at 1. unfold get_world at 1.
  cbn [emit db]. rewrite Hdb. unfold ret at 1.
  unfold bind at 1. rewrite Hsel. fold_extend.
  rewrite (for_enumerate_fails_at ct _ pre arts c post a k err) by done.
  cbn [List.find fst snd any_Exception].
  unfold ws_send_json, ws_close, log. fold_extend.
  rewrite Z.add_0_l. do 2 f_equal. by norm_app.
Qed.

(** A run on a non-empty id: accept, the lookup, a body of one of the three
    kinds, and the close; the handler returns normally. *)
Lemma ws_run_body (id ct : string) (s e : Z) (w : World) :
  truthy_str id = true ->
  exists obs,
    stream_body ct w id s e obs /\
    websocket_processing id ct s e w
    = (Ok tt,
       extend w (WsAccept :: DbGetChapters id :: obs
                 ++ [WsClose 1000 None])).
Proof.
  intros E.
  destruct (db w !! id) as [t|] eqn:Hdb.
  2:{ eexists. split; [by apply body_unknown|].
      by rewrite (ws_run_unknown id ct s e w E Hdb). }
  destruct (first_failure ct (py_slice (task_chapters t) s (e + 1)))
    as [(arts & HA)|(pre & arts & c & post & err & Hsel & HA & Herr)].
  - eexists. split; [by apply (body_completed ct w id s e t arts)|].
    rewrite (ws_run_ok id ct s e w t arts E Hdb HA). by norm_app.
  - destruct (pipeline_fails_at ct c err Herr) as (a & k & Hk).
    eexists.
    split; [by apply (body_failed ct w id s e t pre arts c post err a k)|].
    by apply (ws_run_fails_at id ct s e w t).
Qed.

(** *** What the observations of a body are made of *)

Lemma rounds_obs_nil (ct : string) (total idx : Z) :
  rounds_obs ct total idx [] = [].
Proof. reflexivity. Qed.

(** To show a property of the successful rounds, show it is kept when one
    more round is put in front. *)
Lemma rounds_obs_rect (ct : string) (total : Z) (P : list Obs -> Prop) :
  P [] ->
  (forall idx ch a rest, P rest -> P (chapter_obs ct total idx ch a ++ rest)) ->
  forall (l : list (Chapter * Artifacts)) (idx : Z),
    P (rounds_obs ct total idx l).
Proof.
  intros Hnil Hcons. induction l as [|[ch a] l IH]; intros idx; [done|].
  rewrite rounds_obs_cons. apply Hcons, IH.
Qed.

Lemma pauses_app (l1 l2 : list Obs) : pauses (l1 ++ l2) = pauses l1 ++ pauses l2.
Proof. apply omap_app. Qed.

Lemma completed_titles_app (l1 l2 : list ProcessingEvent) :
  completed_titles (l1 ++ l2) = completed_titles l1 ++ completed_titles l2.
Proof. apply omap_app. Qed.

Lemma ws_actions_app (l1 l2 : list Obs) :
  ws_actions (l1 ++ l2) = ws_actions l1 ++ ws_actions l2.
Proof. apply List.filter_app. Qed.

(** Between accept and close, what happens on the socket is the sends. *)
Lemma ws_actions_are_sends (l : list Obs) :
  forallb keeps_socket l = true -> ws_actions l = map WsSend (sent_events l).
Proof.
  induction l as [|o l IH]; [done|]. simpl.
  intros [Ho Hl]%andb_prop. unfold sent_events in *. simpl.
  destruct o; simpl in *; try done; by rewrite IH.
Qed.

Lemma stage_calls_keep_socket (l : list Obs) :
  forallb is_call l = true -> forallb keeps_socket l = true.
Proof.
  induction l as [|o l IH]; [done|]. simpl.
  intros [Ho Hl]%andb_prop. rewrite IH by done. by destruct o.
Qed.

Lemma stage_calls_no_pause (l : list Obs) :
  forallb is_call l = true -> pauses l = [].
Proof.
  induction l as [|o l IH]; [done|]. simpl.
  intros [Ho Hl]%andb_prop. unfold pauses in *. simpl.
  rewrite IH by done. by destruct o.
Qed.

Lemma take_stage_calls (ct : string) (c : Chapter) (a : Artifacts) (k : nat) :
  forallb is_call (take k (stage_calls ct c a)) = true /\
  ((1 <= k)%nat -> scripts_requested (take k (stage_calls ct c a)) = [c]).
Proof.
  do 6 (destruct k as [|k]; [split; [done|first [lia|done]]|]).
  split; [done|done].
Qed.

Lemma sent_events_take_calls (ct : string) (c : Chapter) (a : Artifacts)
    (k : nat) :
  sent_events (take k (stage_calls ct c a)) = [].
Proof. apply stage_calls_not_sent, take_stage_calls. Qed.

Lemma pauses_take_calls (ct : string) (c : Chapter) (a : Artifacts)
    (k : nat) :
  pauses (take k (stage_calls ct c a)) = [].
Proof. apply stage_calls_no_pause, take_stage_calls. Qed.

Lemma fails_at_bounds (k : nat) (ct : string) (c : Chapter) (a : Artifacts)
    (e : exn) :
  fails_at k ct c a e -> (1 <= k <= 5)%nat.
Proof.
  intros [Hk _]. do 6 (destruct k as [|k]; [first [done|lia]|]). done.
Qed.

Lemma rounds_keep_socket (ct : string) (total idx : Z)
    (l : list (Chapter * Artifacts)) :
  forallb keeps_socket (rounds_obs ct total idx l) = true.
Proof.
  revert l idx.
  apply (rounds_obs_rect ct total (fun o => forallb keeps_socket o = true));
    [done|].
  intros idx ch a rest IH. by rewrite forallb_app, IH.
Qed.

(** A body neither accepts nor closes. *)
Lemma stream_body_keeps_socket (ct : string) (w : World) (id : string)
    (s e : Z) (obs : list Obs) :
  stream_body ct w id s e obs -> forallb keeps_socket obs = true.
Proof.
  destruct 1 as [?|t arts ? ?|t pre arts c post err a k ? ? ? ?]; [done|..].
  - by rewrite forallb_app, rounds_keep_socket.
  - rewrite forallb_app, rounds_keep_socket. cbn [forallb keeps_socket andb].
    rewrite forallb_app, stage_calls_keep_socket; [done|].
    apply take_stage_calls.
Qed.

Lemma new_obs_of_body (w : World) (id : string) (obs : list Obs) :
  new_obs w (extend w (WsAccept :: DbGetChapters id :: obs
                       ++ [WsClose 1000 None]))
  = [WsAccept; DbGetChapters id] ++ obs ++ [WsClose 1000 None].
Proof. by rewrite new_obs_extend. Qed.

Lemma sent_events_of_run (id : string) (obs : list Obs) :
  sent_events ([WsAccept; DbGetChapters id] ++ obs ++ [WsClose 1000 None])
  = sent_events obs.
Proof.
  rewrite !sent_events_app.
  change (sent_events [WsAccept; DbGetChapters id]) with (@nil ProcessingEvent).
  change (sent_events [WsClose 1000 None]) with (@nil ProcessingEvent).
  by rewrite app_nil_r.
Qed.

Lemma sent_events_chapter (ct : string) (total idx : Z) (ch : Chapter)
    (a : Artifacts) :
  sent_events (chapter_obs ct total idx ch a)
  = [Processing (idx + 1) total;
     ChapterComplete (a_video_path a) (title ch)].
Proof. reflexivity. Qed.

Lemma rounds_events_progress (ct : string) (total idx : Z)
    (l : list (Chapter * Artifacts)) :
  forallb is_progress (sent_events (rounds_obs ct total idx l)) = true.
Proof.
  revert l idx.
  apply (rounds_obs_rect ct total
           (fun o => forallb is_progress (sent_events o) = true)); [done|].
  intros idx ch a rest IH.
  by rewrite sent_events_app, sent_events_chapter, forallb_app, IH.
Qed.

(** The events of a body: chapter events, then one last event, "completed" or
    "error". *)
Lemma stream_body_events (ct : string) (w : World) (id : string) (s e : Z)
    (obs : list Obs) :
  stream_body ct w id s e obs ->
  exists body last,
    sent_events obs = body ++ [last] /\
    forallb is_progress body = true /\
    (last = completed_event \/ exists msg, last = Error msg).
Proof.
  destruct 1 as [?|t arts ? ?|t pre arts c post err a k ? ? ? ?].
  - exists [], (Error (str (not_found id))). split; [done|]. split; [done|].
    right. by eexists.
  - eexists _, completed_event. rewrite sent_events_app.
    split; [reflexivity|]. split; [apply rounds_events_progress|by left].
  - exists (sent_events (rounds_obs ct (Z.of_nat (length (pre ++ c :: post)))
                           0 (zip pre arts))
            ++ [Processing (Z.of_nat (length pre) + 1)
                  (Z.of_nat (length (pre ++ c :: post)))]),
      (Error (str err)).
    split; [|split].
    + rewrite sent_events_app.
      change (sent_events (WsSend ?ev :: ?l)) with (ev :: sent_events l).
      rewrite sent_events_app, sent_events_take_calls.
      by rewrite <- app_assoc.
    + by rewrite forallb_app, rounds_events_progress.
    + right. by eexists.
Qed.

Lemma last_app_two {A} (l : list A) (x y : A) : last (l ++ [x; y]) = Some y.
Proof.
  replace (l ++ [x; y]) with ((l ++ [x]) ++ [y]) by (by rewrite <- app_assoc).
  apply last_snoc.
Qed.

Lemma processing_of_rounds (ct : string) (total : Z)
    (l : list (Chapter * Artifacts)) :
  forall idx : Z,
    List.filter is_processing (sent_events (rounds_obs ct total idx l))
    = map (fun i => Processing (idx + Z.of_nat i + 1) total)
        (seq 0 (length l)).
Proof.
  induction l as [|[ch a] l IH]; intros idx; [done|].
  rewrite rounds_obs_cons, sent_events_app, sent_events_chapter.
  rewrite List.filter_app, IH. cbn [List.filter is_processing app length].
  cbn [seq map]. rewrite <- seq_shift, map_map.
  rewrite Z.add_0_r. f_equal. apply map_ext. intros i. f_equal. lia.
Qed.

Lemma titles_of_rounds (ct : string) (total : Z)
    (l : list (Chapter * Artifacts)) :
  forall idx : Z,
    completed_titles (sent_events (rounds_obs ct total idx l))
    = map (fun p => title (fst p)) l.
Proof.
  induction l as [|[ch a] l IH]; intros idx; [done|].
  rewrite rounds_obs_cons, sent_events_app, sent_events_chapter.
  by rewrite completed_titles_app, IH.
Qed.

Lemma titles_of_zip (l : list Chapter) (arts : list Artifacts) :
  length l = length arts ->
  map (fun p : Chapter * Artifacts => title (fst p)) (zip l arts)
  = map title l.
Proof.
  intros Hlen. rewrite <- (map_map fst title). f_equal.
  apply fst_zip. lia.
Qed.

Lemma pauses_of_rounds (ct : string) (total idx : Z)
    (l : list (Chapter * Artifacts)) :
  pauses (rounds_obs ct total idx l)
  = repeat 1 (length (completed_titles
                        (sent_events (rounds_obs ct total idx l)))).
Proof.
  revert l idx.
  apply (rounds_obs_rect ct total
           (fun o => pauses o
                     = repeat 1 (length (completed_titles (sent_events o)))));
    [done|].
  intros idx ch a rest IH.
  rewrite pauses_app, sent_events_app, completed_titles_app, length_app, IH.
  reflexivity.
Qed.

(** One pause of a second per "chapter_complete", in any body. *)
Lemma stream_body_pauses (ct : string) (w : World) (id : string) (s e : Z)
    (obs : list Obs) :
  stream_body ct w id s e obs ->
  pauses obs = repeat 1 (length (completed_titles (sent_events obs))).
Proof.
  destruct 1 as [?|t arts ? ?|t pre arts c post err a k ? ? ? ?]; [done|..].
  - rewrite pauses_app, sent_events_app, completed_titles_app, length_app.
    rewrite pauses_of_rounds. cbn. by rewrite ?app_nil_r, ?Nat.add_0_r.
  - rewrite pauses_app, sent_events_app, completed_titles_app, length_app.
    rewrite pauses_of_rounds.
    change (pauses (WsSend ?ev :: ?l)) with (pauses l).
    change (sent_events (WsSend ?ev :: ?l)) with (ev :: sent_events l).
    rewrite pauses_app, sent_events_app.
    rewrite pauses_take_calls, sent_events_take_calls.
    cbn. by rewrite ?app_nil_r, ?Nat.add_0_r.
Qed.

(** Any slice is a run of consecutive elements of the list. *)
Lemma py_slice_infix {A} (l : list A) (i j : Z) :
  exists before after, l = before ++ py_slice l i j ++ after.
Proof.
  unfold py_slice.
  exists (take (Z.to_nat (adjust_index (Z.of_nat (length l)) i)) l),
    (drop (Z.to_nat (adjust_index (Z.of_nat (length l)) j
                     - adjust_index (Z.of_nat (length l)) i))
       (drop (Z.to_nat (adjust_index (Z.of_nat (length l)) i)) l)).
  by rewrite !take_drop.
Qed.

(** ** The streaming endpoint: further properties *)

(** X1.  [websocket_processing] returns normally on every task id, range and
    store, whatever the lookup and the stages do: no exception of theirs
    leaves the handler. *)
Theorem stream_returns_normally (id ct : string) (s e : Z) (w : World) :
  fst (websocket_processing id ct s e w) = Ok tt.
Proof.
  destruct (truthy_str id) eqn:E.
  - destruct (ws_run_body id ct s e w E) as (obs & _ & ->). done.
  - by rewrite ws_run_rejected.
Qed.


(** X3.  On a non-empty task id, what happens on the socket is: one accept,
    first; then the sends; then one close, with the default code, last.
    Nothing is sent before the accept or after the close. *)
Theorem socket_accept_sends_close (id ct : string) (s e : Z) (w : World) :
  truthy_str id = true ->
  ws_actions (new_obs w (snd (websocket_processing id ct s e w)))
  = WsAccept
    :: map WsSend
         (sent_events (new_obs w (snd (websocket_processing id ct s e w))))
    ++ [WsClose 1000 None].
Proof.
  intros E. destruct (ws_run_body id ct s e w E) as (obs & Hobs & ->).
  cbn [snd]. rewrite new_obs_of_body, sent_events_of_run.
  rewrite !ws_actions_app.
  rewrite (ws_actions_are_sends obs)
    by apply (stream_body_keeps_socket ct w id s e obs Hobs).
  reflexivity.
Qed.

(** X4.  On a non-empty task id the events sent end with exactly one closing
    event, "completed" or "error"; every event before it is a "processing" or
    a "chapter_complete" event. *)
Theorem one_closing_event_last (id ct : string) (s e : Z) (w : World) :
  truthy_str id = true ->
  exists body last,
    sent_events (new_obs w (snd (websocket_processing id ct s e w)))
    = body ++ [last] /\
    forallb is_progress body = true /\
    (last = completed_event \/ exists msg, last = Error msg).
Proof.
  intros E. destruct (ws_run_body id ct s e w E) as (obs & Hobs & ->).
  cbn [snd]. rewrite new_obs_of_body, sent_events_of_run.
  apply (stream_body_events ct w id s e obs Hobs).
Qed.

(** X5.  On a stored task, the "processing" events sent are numbered
    1, 2, ..., [k] with no gap, each with the length of the selected slice as
    its total, and [k] is at most that length; the "chapter_complete" events
    carry the titles of the first chapters of the slice, in order: all [k]
    when the run ends with "completed" ([k] is then the whole slice), and all
    but the last when it ends with "error". *)
Theorem progress_is_numbered (id ct : string) (s e : Z) (w : World)
    (t : Task) :
  truthy_str id = true -> db w !! id = Some t ->
  exists k m : nat,
    (k <= length (py_slice (task_chapters t) s (e + 1)))%nat /\
    List.filter is_processing
      (sent_events (new_obs w (snd (websocket_processing id ct s e w))))
    = map (fun i => Processing (Z.of_nat i + 1)
                      (Z.of_nat (length (py_slice (task_chapters t) s
                                           (e + 1)))))
        (seq 0 k) /\
    completed_titles
      (sent_events (new_obs w (snd (websocket_processing id ct s e w))))
    = map title (take m (py_slice (task_chapters t) s (e + 1))) /\
    ((m = k /\ k = length (py_slice (task_chapters t) s (e + 1)) /\
      last (sent_events
              (new_obs w (snd (websocket_processing id ct s e w))))
      = Some completed_event) \/
     (k = S m /\
      exists msg,
        last (sent_events
                (new_obs w (snd (websocket_processing id ct s e w))))
        = Some (Error msg))).
Proof.
  intros E Hdb. destruct (ws_run_body id ct s e w E) as (obs & Hobs & ->).
  cbn [snd]. rewrite new_obs_of_body, sent_events_of_run.
  destruct Hobs as [Hnone|t' arts Ht HA|t' pre arts c post err a k Ht Hsel HA Hk].
  - congruence.
  - assert (t' = t) as -> by congruence.
    pose proof (Forall2_length _ _ _ HA) as Hlen.
    exists (length (py_slice (task_chapters t) s (e + 1))),
      (length (py_slice (task_chapters t) s (e + 1))).
    rewrite sent_events_app, List.filter_app, completed_titles_app.
    rewrite processing_of_rounds, titles_of_rounds, titles_of_zip by done.
    rewrite length_zip, <- Hlen, Nat.min_id, firstn_all.
    split; [done|]. split; [by rewrite app_nil_r|].
    split; [by rewrite app_nil_r|]. left. split; [done|]. split; [done|].
    apply last_snoc.
  - assert (t' = t) as -> by congruence.
    pose proof (Forall2_length _ _ _ HA) as Hlen.
    exists (S (length pre)), (length pre). rewrite Hsel.
    rewrite sent_events_app.
    change (sent_events (WsSend ?ev :: ?l)) with (ev :: sent_events l).
    rewrite sent_events_app, sent_events_take_calls.
    rewrite List.filter_app, completed_titles_app.
    rewrite processing_of_rounds, titles_of_rounds, titles_of_zip by done.
    rewrite length_zip, <- Hlen, Nat.min_id.
    change (sent_events [WsSend (Error (str err))]) with [Error (str err)].
    cbn [app].
    split; [rewrite length_app; simpl; lia|].
    split; [|split].
    + rewrite seq_S, map_app. by simpl.
    + simpl. by rewrite app_nil_r, take_app_length.
    + right. split; [done|]. exists (str err). apply last_app_two.
Qed.

(** X6.  The handler pauses for one second once per "chapter_complete" event
    it sends, also after the last chapter, and on no other occasion: a run
    that completes [n] chapters sleeps [n] times, a second each. *)
Theorem one_pause_per_completed_chapter (id ct : string) (s e : Z)
    (w : World) :
  pauses (new_obs w (snd (websocket_processing id ct s e w)))
  = repeat 1
      (length
         (completed_titles
            (sent_events
               (new_obs w (snd (websocket_processing id ct s e w)))))).
Proof.
  destruct (truthy_str id) eqn:E.
  2:{ rewrite ws_run_rejected by done. cbn [snd].
      by rewrite new_obs_extend. }
  destruct (ws_run_body id ct s e w E) as (obs & Hobs & ->).
  cbn [snd]. rewrite new_obs_of_body, sent_events_of_run.
  rewrite !pauses_app.
  change (pauses [WsAccept; DbGetChapters id]) with (@nil Z).
  change (pauses [WsClose 1000 None]) with (@nil Z).
  rewrite app_nil_r. cbn [app].
  apply (stream_body_pauses ct w id s e obs Hobs).
Qed.

(** X7.  When a stage raises on chapter [c], the chapters before it having
    succeeded, the round of [c] is its "processing" event followed by the
    stage calls up to the failing one and by no other: the stages after the
    failing stage are not called, each stage called was fed the results of
    the stages before it, and the round has neither a "chapter_complete"
    event nor a pause.  The "error" event and the close follow at once. *)
Theorem failing_round_stops_at_failing_stage (id ct : string) (s e : Z)
    (w : World) (t : Task) (pre : list Chapter) (arts : list Artifacts)
    (c : Chapter) (post : list Chapter) (err : exn) :
  truthy_str id = true -> db w !! id = Some t ->
  py_slice (task_chapters t) s (e + 1) = pre ++ c :: post ->
  Forall2 (produces ct) pre arts ->
  pipeline c ct = inl err ->
  exists (a : Artifacts) (k : nat),
    (1 <= k <= 5)%nat /\
    fails_at k ct c a err /\
    new_obs w (snd (websocket_processing id ct s e w))
    = [WsAccept; DbGetChapters id]
      ++ rounds_obs ct (Z.of_nat (length (pre ++ c :: post))) 0 (zip pre arts)
      ++ WsSend (Processing (Z.of_nat (length pre) + 1)
                   (Z.of_nat (length (pre ++ c :: post))))
         :: take k (stage_calls ct c a)
      ++ [WsSend (Error (str err)); WsClose 1000 None].
Proof.
  intros E Hdb Hsel HA Herr.
  destruct (pipeline_fails_at ct c err Herr) as (a & k & Hk).
  exists a, k. split; [by apply (fails_at_bounds k ct c a err)|].
  split; [done|].
  rewrite (ws_run_fails_at id ct s e w t pre arts c post a k err) by done.
  cbn [snd]. rewrite new_obs_extend. by norm_app.
Qed.

(** X8.  On a stored task the chapters selected are a run of consecutive
    stored chapters, in the stored order, whatever the range; and the
    chapters handed to script generation are the first of them, in that
    order, each once: no chapter outside the selection is processed, none is
    skipped and none is processed twice. *)
Theorem scripts_follow_stored_order (id ct : string) (s e : Z) (w : World)
    (t : Task) :
  truthy_str id = true -> db w !! id = Some t ->
  (exists before after,
     task_chapters t
     = before ++ py_slice (task_chapters t) s (e + 1) ++ after) /\
  (exists later,
     py_slice (task_chapters t) s (e + 1)
     = scripts_requested
         (new_obs w (snd (websocket_processing id ct s e w)))
       ++ later).
Proof.
  intros E Hdb. split; [apply py_slice_infix|].
  destruct (ws_run_body id ct s e w E) as (obs & Hobs & ->).
  cbn [snd]. rewrite new_obs_of_body.
  rewrite !scripts_requested_app.
  change (scripts_requested [WsAccept; DbGetChapters id]) with (@nil Chapter).
  change (scripts_requested [WsClose 1000 None]) with (@nil Chapter).
  rewrite app_nil_r. cbn [app].
  destruct Hobs as [Hnone|t' arts Ht HA|t' pre arts c post err a k Ht Hsel HA Hk].
  - congruence.
  - assert (t' = t) as -> by congruence.
    pose proof (Forall2_length _ _ _ HA) as Hlen.
    exists []. rewrite scripts_requested_app, scripts_requested_rounds.
    rewrite fst_zip by lia. by rewrite !app_nil_r.
  - assert (t' = t) as -> by congruence.
    pose proof (Forall2_length _ _ _ HA) as Hlen.
    exists post. rewrite Hsel.
    rewrite scripts_requested_app, scripts_requested_rounds.
    rewrite fst_zip by lia.
    change (scripts_requested (WsSend ?ev :: ?l)) with (scripts_requested l).
    rewrite scripts_requested_app.
    rewrite (proj2 (take_stage_calls ct c a k))
      by apply (fails_at_bounds k ct c a err Hk).
    by rewrite <- app_assoc.
Qed.

(** ** The upload endpoint: further properties *)

(** A request that passes the two checks ends in one of five ways. *)
Lemma upload_valid_cases (f : UploadFile) (w : World) :
  valid_upload f ->
  (exists e,
     open_error (upload_path f) = Some e /\
     upload_file f w
     = (Raise (save_failure e),
        left_by_upload w (delete (upload_path f) (fs w))
          (Some (upload_path f))
          (FsOpen (upload_path f) :: FileClose
           :: if bool_decide (is_Some (fs w !! upload_path f))
              then [FsRemove (upload_path f)] else []))) \/
  (exists e,
     open_error (upload_path f) = None /\
     write_error (upload_path f) (file f) = Some e /\
     upload_file f w
     = (Raise (save_failure e),
        left_by_upload w (delete (upload_path f) (fs w))
          (Some (upload_path f))
          [FsOpen (upload_path f); FsWrite (upload_path f); FileClose;
           FsRemove (upload_path f)])) \/
  (exists e,
     saved f /\
     process_file (upload_path f) (Some (file f)) = inl e /\
     upload_file f w
     = (Raise (HTTPException 422 ("Error processing file: " +:+ str e)),
        left_by_upload w (delete (upload_path f) (fs w))
          (Some (upload_path f))
          [FsOpen (upload_path f); FsWrite (upload_path f);
           CallProcessFile (upload_path f); FsRemove (upload_path f);
           FileClose])) \/
  (exists text e,
     saved f /\
     process_file (upload_path f) (Some (file f)) = inr text /\
     generact_list_of_subject text = inl e /\
     upload_file f w
     = (Raise (HTTPException 422 ("Error processing file: " +:+ str e)),
        left_by_upload w (delete (upload_path f) (fs w))
          (Some (upload_path f))
          [FsOpen (upload_path f); FsWrite (upload_path f);
           CallProcessFile (upload_path f); CallSubjects text;
           FsRemove (upload_path f); FileClose])) \/
  (exists text titles,
     saved f /\
     process_file (upload_path f) (Some (file f)) = inr text /\
     generact_list_of_subject text = inr titles /\
     upload_file f w
     = (Ok {| task_id := uuid4_str (uuids w); chapters := titles |},
        stored_by_upload f w text titles)).
Proof.
  intros Hv. unfold saved.
  destruct (open_error (upload_path f)) as [e|] eqn:Ho.
  { left. exists e. split; [done|]. by apply upload_open_fails. }
  destruct (write_error (upload_path f) (file f)) as [e|] eqn:Hw.
  { right; left. exists e. do 2 (split; [done|]).
    by apply upload_write_fails. }
  destruct (process_file (upload_path f) (Some (file f))) as [e|text] eqn:Hp.
  { do 2 right; left. exists e. do 2 (split; [done|]).
    by apply upload_process_fails. }
  destruct (generact_list_of_subject text) as [e|titles] eqn:Hg.
  { do 3 right; left. exists text, e. do 3 (split; [done|]).
    by apply upload_subjects_fails. }
  do 4 right. exists text, titles. do 3 (split; [done|]).
  by apply upload_succeeds.
Qed.



(** X11.  When the saved upload cannot be processed, the answer is 422 with
    detail "Error processing file: " followed by the text of the exception,
    whether extraction or segmentation raised it; segmentation is not called
    when extraction fails; the handler removes the temporary file itself,
    before the upload is closed; and nothing is stored. *)
Theorem unprocessed_upload_is_422 (f : UploadFile) (w : World) (e : exn) :
  valid_upload f -> saved f ->
  (process_file (upload_path f) (Some (file f)) = inl e ->
   fst (upload_file f w)
   = Raise (HTTPException 422 ("Error processing file: " +:+ str e)) /\
   new_obs w (snd (upload_file f w))
   = [FsOpen (upload_path f); FsWrite (upload_path f);
      CallProcessFile (upload_path f); FsRemove (upload_path f);
      FileClose]) /\
  (forall text : string,
     process_file (upload_path f) (Some (file f)) = inr text ->
     generact_list_of_subject text = inl e ->
     fst (upload_file f w)
     = Raise (HTTPException 422 ("Error processing file: " +:+ str e)) /\
     new_obs w (snd (upload_file f w))
     = [FsOpen (upload_path f); FsWrite (upload_path f);
        CallProcessFile (upload_path f); CallSubjects text;
        FsRemove (upload_path f); FileClose]).
Proof.
  intros Hv [Ho Hw]. split.
  - intros Hp. rewrite (upload_process_fails f w e Hv Ho Hw Hp).
    cbn [fst snd]. by rewrite new_obs_left_by_upload.
  - intros text Hp Hg.
    rewrite (upload_subjects_fails f w text e Hv Ho Hw Hp Hg).
    cbn [fst snd]. by rewrite new_obs_left_by_upload.
Qed.

(** X12.  The handler opens the temporary file exactly for the uploads that
    have a name and at most [100 * 1024 * 1024] bytes: a file of exactly that
    size is accepted, and a request rejected by a check does nothing but
    close the upload. *)
Theorem save_attempted_iff_valid (f : UploadFile) (w : World) :
  (head (new_obs w (snd (upload_file f w))) = Some (FsOpen (upload_path f))
   <-> truthy (filename f) = true /\ blob_len (file f) <= 100 * 1024 * 1024) /\
  (head (new_obs w (snd (upload_file f w))) <> Some (FsOpen (upload_path f))
   -> new_obs w (snd (upload_file f w)) = [FileClose]).
Proof.
  destruct (upload_cases f w)
    as [[E ->]|[(E & Hs & ->)|[(Hv & _)|(Hv & _)]]]; cbn [snd].
  1,2: rewrite new_obs_left_by_upload; split; [|done];
    split; [done|]; unfold max_size in *; intros [? ?]; first [congruence|lia].
  all: assert (head (new_obs w (snd (upload_file f w)))
               = Some (FsOpen (upload_path f))) as Hhead.
  1,3: destruct (upload_valid_cases f w Hv)
      as [(e0 & Ho & ->)|[(e0 & Ho & Hw & ->)|[(e0 & _ & _ & ->)
         |[(text & e0 & _ & _ & _ & ->)|(text & titles & _ & _ & _ & ->)]]]];
    cbn [snd];
    rewrite ?new_obs_left_by_upload, ?new_obs_stored_by_upload; done.
  all: split; [|done]; split; [|done]; intros _; exact Hv.
Qed.

(** X13.  A successful upload does, in this order and nothing else: open and
    write the temporary file, extract, segment, draw one id, store the task
    under that id, close the upload, remove the temporary file.  One id is
    drawn and one task is stored, and the response carries that id. *)
Theorem successful_upload_in_order (f : UploadFile) (w : World)
    (text : string) (titles : list string) :
  valid_upload f -> saved f ->
  process_file (upload_path f) (Some (file f)) = inr text ->
  generact_list_of_subject text = inr titles ->
  fst (upload_file f w)
  = Ok {| task_id := uuid4_str (uuids w); chapters := titles |} /\
  new_obs w (snd (upload_file f w))
  = [FsOpen (upload_path f); FsWrite (upload_path f);
     CallProcessFile (upload_path f); CallSubjects text;
     Uuid4 (uuids w); DbStoreTask (uuid4_str (uuids w));
     FileClose; FsRemove (upload_path f)] /\
  uuids (snd (upload_file f w)) = S (uuids w).
Proof.
  intros Hv [Ho Hw] Hp Hg.
  rewrite (upload_succeeds f w text titles Hv Ho Hw Hp Hg). cbn [fst snd].
  split; [done|]. split; [|done].
  apply (new_obs_stored_by_upload f w text titles).
Qed.


(** Slicing commutes with mapping. *)
Lemma py_slice_map {A B} (g : A -> B) (l : list A) (i j : Z) :
  py_slice (map g l) i j = map g (py_slice l i j).
Proof.
  unfold py_slice. rewrite length_map.
  by rewrite skipn_map, firstn_map.
Qed.

(** X15.  An upload followed by a stream: after a successful upload, the
    stream opened on the returned task id (a non-empty one) over a range on
    whose chapters every stage succeeds sends one pair of events per title of
    the Python slice [titles[start_chapter : end_chapter + 1]] of the titles
    the upload returned, each "chapter_complete" event carrying its title, in
    the order of the upload's response, and then "completed". *)
Theorem upload_then_stream (f : UploadFile) (w : World) (text : string)
    (titles : list string) (ct : string) (s e : Z) (videos : list string) :
  valid_upload f -> saved f ->
  process_file (upload_path f) (Some (file f)) = inr text ->
  generact_list_of_subject text = inr titles ->
  truthy_str (uuid4_str (uuids w)) = true ->
  Forall2 (fun ch v => pipeline ch ct = inr v)
    (py_slice (map Build_Chapter titles) s (e + 1)) videos ->
  fst (upload_file f w)
  = Ok {| task_id := uuid4_str (uuids w); chapters := titles |} /\
  sent_events
    (new_obs (snd (upload_file f w))
       (snd (websocket_processing (uuid4_str (uuids w)) ct s e
               (snd (upload_file f w)))))
  = concat (imap (pair_events (Z.of_nat (length videos)))
              (zip videos (py_slice titles s (e + 1))))
    ++ [completed_event].
Proof.
  intros Hv [Ho Hw] Hp Hg Hid HF.
  rewrite (upload_succeeds f w text titles Hv Ho Hw Hp Hg). cbn [fst snd].
  split; [done|].
  rewrite (ws_ok_events (uuid4_str (uuids w)) ct s e _
             {| task_filename := filename f;
                task_chapters := map Build_Chapter titles |} videos);
    [|done|apply lookup_insert_eq|done].
  cbn [task_chapters]. rewrite py_slice_map, map_map.
  by rewrite map_id.
Qed.

End Handlers.

(** ** The handlers on the concrete instance *)

Module Run.

Local Abbreviation stream :=
  (websocket_processing Demo.generate_script Demo.generate_voiceover
     Demo.generate_subtitles Demo.generate_image Demo.create_video
     Demo.not_found).

Local Abbreviation upload :=
  (upload_file Demo.process_file Demo.generact_list_of_subject
     Demo.uuid4_str Demo.open_error Demo.write_error).

Local Abbreviation demo_pipeline :=
  (pipeline Demo.generate_script Demo.generate_voiceover
     Demo.generate_subtitles Demo.generate_image Demo.create_video).

(** An empty id on the stored world: the 4003 close and nothing else. *)
Lemma empty_task_id_closed_4003_witness :
  "" = "" /\
  new_obs Demo.world (snd (stream "" "KeyMoment" 0 3 Demo.world))
  = [WsClose 4003 (Some "Invalid task_id")] /\
  sent_events (new_obs Demo.world (snd (stream "" "KeyMoment" 0 3 Demo.world)))
  = [].
Proof.
  apply (empty_task_id_closed_4003 Demo.generate_script
           Demo.generate_voiceover Demo.generate_subtitles
           Demo.generate_image Demo.create_video Demo.not_found
           "" "KeyMoment" 0 3 Demo.world).
  reflexivity.
Defined.

(** An id the store does not hold. *)
Lemma unknown_task_single_error_witness :
  ws_actions
    (new_obs Demo.world (snd (stream "task-z" "KeyMoment" 0 3 Demo.world)))
  = [WsAccept; WsSend (Error "Task not found: task-z"); WsClose 1000 None] /\
  sent_events
    (new_obs Demo.world (snd (stream "task-z" "KeyMoment" 0 3 Demo.world)))
  = [Error "Task not found: task-z"].
Proof.
  apply (unknown_task_single_error Demo.generate_script
           Demo.generate_voiceover Demo.generate_subtitles
           Demo.generate_image Demo.create_video Demo.not_found
           "task-z" "KeyMoment" 0 3 Demo.world).
  - reflexivity.
  - vm_compute. reflexivity.
Defined.

(** The voiceover fails on the second chapter of task-b. *)
Lemma stage_failure_single_error_then_close_witness :
  exists before,
    new_obs Demo.world (snd (stream "task-b" "KeyMoment" 0 3 Demo.world))
    = before ++ [WsSend (Error "voice synthesis failed"); WsClose 1000 None] /\
    sent_events before
    = [Processing 1 3; ChapterComplete "video of script of Intro" "Intro";
       Processing 2 3] /\
    scripts_requested before
    = [Build_Chapter "Intro"; Build_Chapter "Broken"].
Proof.
  refine (proj1 (stage_failure_single_error_then_close Demo.generate_script
                   Demo.generate_voiceover Demo.generate_subtitles
                   Demo.generate_image Demo.create_video Demo.not_found)
            "task-b" "KeyMoment" 0 3 Demo.world Demo.task_b
            [Build_Chapter "Intro"] ["video of script of Intro"]
            (Build_Chapter "Broken") [Build_Chapter "Conclusion"]
            (Exception "voice synthesis failed") _ _ _ _ _).
  - reflexivity.
  - vm_compute. reflexivity.
  - vm_compute. reflexivity.
  - repeat constructor.
  - vm_compute. reflexivity.
Defined.

(** Chapters 0 to 1 of task-a: two pairs and "completed". *)
Lemma pairs_for_range_inside_list_witness :
  Z.of_nat (length ["video of script of Intro"; "video of script of Body"])
  = 1 - 0 + 1 /\
  sent_events
    (new_obs Demo.world (snd (stream "task-a" "KeyMoment" 0 1 Demo.world)))
  = [Processing 1 2; ChapterComplete "video of script of Intro" "Intro";
     Processing 2 2; ChapterComplete "video of script of Body" "Body";
     Completed "All chapters processed successfully"].
Proof.
  refine (pairs_for_range_inside_list Demo.generate_script
            Demo.generate_voiceover Demo.generate_subtitles
            Demo.generate_image Demo.create_video Demo.not_found
            "task-a" "KeyMoment" 0 1 Demo.world Demo.task_a
            ["video of script of Intro"; "video of script of Body"]
            _ _ _ _ _ _).
  - reflexivity.
  - vm_compute. reflexivity.
  - lia.
  - lia.
  - vm_compute. discriminate.
  - repeat constructor.
Defined.

(** C1 as stated fails on the default range: task-a has three chapters, every
    stage succeeds on each, the range is [0, 3], and three pairs are sent, not
    [3 - 0 + 1 = 4]. *)
Lemma default_range_on_three_chapters :
  db Demo.world !! "task-a" = Some Demo.task_a /\
  Forall2 (fun ch v => demo_pipeline ch "KeyMoment" = inr v)
    (py_slice (task_chapters Demo.task_a) 0 (3 + 1))
    ["video of script of Intro"; "video of script of Body";
     "video of script of Conclusion"] /\
  sent_events
    (new_obs Demo.world (snd (stream "task-a" "KeyMoment" 0 3 Demo.world)))
  = [Processing 1 3; ChapterComplete "video of script of Intro" "Intro";
     Processing 2 3; ChapterComplete "video of script of Body" "Body";
     Processing 3 3;
     ChapterComplete "video of script of Conclusion" "Conclusion";
     Completed "All chapters processed successfully"] /\
  Z.of_nat
    (length
       (List.filter is_processing
          (sent_events
             (new_obs Demo.world
                (snd (stream "task-a" "KeyMoment" 0 3 Demo.world))))))
  <> 3 - 0 + 1.
Proof.
  split; [vm_compute; reflexivity|].
  split; [repeat constructor|].
  split; [vm_compute; reflexivity|].
  vm_compute. discriminate.
Qed.

(** The first chapter of task-a alone: its eight observations in order. *)
Lemma stages_in_order_per_chapter_witness :
  exists (completed : list Chapter) (arts : list Artifacts) (rest : list Obs),
    Forall2 (produces Demo.generate_script Demo.generate_voiceover
               Demo.generate_subtitles Demo.generate_image Demo.create_video
               "KeyMoment") completed arts /\
    new_obs Demo.world (snd (stream "task-a" "KeyMoment" 0 0 Demo.world))
    = [WsAccept; DbGetChapters "task-a"]
      ++ rounds_obs "KeyMoment"
           (Z.of_nat (length (py_slice (task_chapters Demo.task_a) 0 (0 + 1))))
           0 (zip completed arts)
      ++ rest /\
    ((completed = py_slice (task_chapters Demo.task_a) 0 (0 + 1) /\
      rest = [WsSend completed_event; WsClose 1000 None]) \/
     (exists c post err calls,
        py_slice (task_chapters Demo.task_a) 0 (0 + 1)
        = completed ++ c :: post /\
        demo_pipeline c "KeyMoment" = inl err /\
        stage_calls_of c calls /\
        rest = WsSend (Processing (Z.of_nat (length completed) + 1)
                         (Z.of_nat
                            (length (py_slice (task_chapters Demo.task_a) 0
                                       (0 + 1)))))
               :: calls ++ [WsSend (Error (str err)); WsClose 1000 None])).
Proof.
  apply (stages_in_order_per_chapter Demo.generate_script
           Demo.generate_voiceover Demo.generate_subtitles
           Demo.generate_image Demo.create_video Demo.not_found
           "task-a" "KeyMoment" 0 0 Demo.world Demo.task_a).
  - reflexivity.
  - vm_compute. reflexivity.
Defined.

(** Chapters 1 to 5 of the three of task-a: the slice stops at the end of the
    list, two pairs are sent and both report a total of 2. *)
Lemma range_is_python_slice_witness :
  sent_events
    (new_obs Demo.world (snd (stream "task-a" "KeyMoment" 1 5 Demo.world)))
  = [Processing 1 2; ChapterComplete "video of script of Body" "Body";
     Processing 2 2;
     ChapterComplete "video of script of Conclusion" "Conclusion";
     Completed "All chapters processed successfully"] /\
  Z.of_nat
    (length ["video of script of Body"; "video of script of Conclusion"])
  = Z.max 0 (Z.min 3 (5 + 1) - 1).
Proof.
  destruct (range_is_python_slice Demo.generate_script
              Demo.generate_voiceover Demo.generate_subtitles
              Demo.generate_image Demo.create_video Demo.not_found
              "task-a" "KeyMoment" 1 5 Demo.world Demo.task_a
              ["video of script of Body"; "video of script of Conclusion"])
    as (Hsent & Hcount & _).
  - reflexivity.
  - vm_compute. reflexivity.
  - repeat constructor.
  - split; [exact Hsent|]. apply Hcount; lia.
Defined.

(** C9 as stated fails for [end_chapter = -2]: with [start_chapter = 0] on the
    three chapters of task-a the slice is [chapters[0:-1]], two pairs are
    sent, and [max 0 (min 3 (-2 + 1) - 0)] is 0. *)
Lemma negative_end_chapter_counts_from_the_end :
  db Demo.world !! "task-a" = Some Demo.task_a /\
  0 <= 0 /\
  Forall2 (fun ch v => demo_pipeline ch "KeyMoment" = inr v)
    (py_slice (task_chapters Demo.task_a) 0 (-2 + 1))
    ["video of script of Intro"; "video of script of Body"] /\
  sent_events
    (new_obs Demo.world (snd (stream "task-a" "KeyMoment" 0 (-2) Demo.world)))
  = [Processing 1 2; ChapterComplete "video of script of Intro" "Intro";
     Processing 2 2; ChapterComplete "video of script of Body" "Body";
     Completed "All chapters processed successfully"] /\
  Z.of_nat
    (length
       (List.filter is_processing
          (sent_events
             (new_obs Demo.world
                (snd (stream "task-a" "KeyMoment" 0 (-2) Demo.world))))))
  <> Z.max 0
       (Z.min (Z.of_nat (length (task_chapters Demo.task_a))) (-2 + 1) - 0).
Proof.
  split; [vm_compute; reflexivity|].
  split; [lia|].
  split; [repeat constructor|].
  split; [vm_compute; reflexivity|].
  vm_compute. discriminate.
Qed.

(** A named file of 100 MB and one byte: 413, and the store is untouched. *)
Lemma upload_rejects_unnamed_then_oversize_witness :
  fst (upload Demo.big_doc Demo.world)
  = Raise (HTTPException 413 "File too large. Maximum size is 100MB") /\
  db (snd (upload Demo.big_doc Demo.world)) = db Demo.world.
Proof.
  destruct (upload_rejects_unnamed_then_oversize Demo.process_file
              Demo.generact_list_of_subject Demo.uuid4_str Demo.open_error
              Demo.write_error Demo.big_doc Demo.world)
    as (_ & _ & H413 & Hstore).
  split.
  - apply H413; [reflexivity|vm_compute; reflexivity].
  - apply Hstore. vm_compute. reflexivity.
Defined.

(** C7 as stated fails when both defects meet: a file of 100 MB and one byte
    with an empty name is answered 400, not 413. *)
Lemma unnamed_oversize_file_gets_400 :
  blob_len (file Demo.unnamed_big_doc) > 100 * 1024 * 1024 /\
  fst (upload Demo.unnamed_big_doc Demo.world)
  = Raise (HTTPException 400 "No file name provided") /\
  status_of (fst (upload Demo.unnamed_big_doc Demo.world)) <> Some 413.
Proof.
  split; [vm_compute; reflexivity|].
  split; [vm_compute; reflexivity|].
  vm_compute. discriminate.
Qed.

(** After the upload of the small document its temporary path is free. *)
Lemma temporary_file_removed_witness :
  fs (snd (upload Demo.doc Demo.world)) !! upload_path Demo.doc = None.
Proof.
  apply (temporary_file_removed Demo.process_file
           Demo.generact_list_of_subject Demo.uuid4_str Demo.open_error
           Demo.write_error Demo.doc Demo.world).
  left. split; [reflexivity|vm_compute; discriminate].
Defined.

(** The empty document fails extraction: 422, nothing stored, no id drawn. *)
Lemma failed_upload_stores_nothing_witness :
  db (snd (upload Demo.empty_doc Demo.world)) = db Demo.world /\
  uuids (snd (upload Demo.empty_doc Demo.world)) = uuids Demo.world /\
  stores_nothing (new_obs Demo.world (snd (upload Demo.empty_doc Demo.world)))
  = true.
Proof.
  apply (proj1 (failed_upload_stores_nothing Demo.process_file
                  Demo.generact_list_of_subject Demo.uuid4_str
                  Demo.open_error Demo.write_error Demo.empty_doc Demo.world)
           (HTTPException 422 "Error processing file: empty document")).
  vm_compute. reflexivity.
Defined.

(** The small document: the three titles come back, and the store returns
    them under the new id. *)
Lemma upload_then_get_chapters_witness :
  exists resp chs,
    fst (upload Demo.doc Demo.world) = Ok resp /\
    chapters resp = ["Intro"; "Body"; "Conclusion"] /\
    fst (get_chapters Demo.not_found (task_id resp)
           (snd (upload Demo.doc Demo.world))) = Ok chs /\
    map title chs = ["Intro"; "Body"; "Conclusion"].
Proof.
  apply (proj1 (upload_then_get_chapters Demo.process_file
                  Demo.generact_list_of_subject Demo.uuid4_str
                  Demo.open_error Demo.write_error Demo.not_found)
           Demo.doc Demo.world "extracted text"
           ["Intro"; "Body"; "Conclusion"]).
  - split; [reflexivity|vm_compute; discriminate].
  - reflexivity.
  - reflexivity.
  - reflexivity.
  - reflexivity.
Defined.

End Run.

(** ** The further properties on the concrete instance *)

Module More.

Local Abbreviation stream :=
  (websocket_processing Demo.generate_script Demo.generate_voiceover
     Demo.generate_subtitles Demo.generate_image Demo.create_video
     Demo.not_found).

Local Abbreviation upload :=
  (upload_file Demo.process_file Demo.generact_list_of_subject
     Demo.uuid4_str Demo.open_error Demo.write_error).

Local Abbreviation upload_on_full_disk :=
  (upload_file Demo.process_file Demo.generact_list_of_subject
     Demo.uuid4_str Demo.open_error Demo.full_disk).

(** The first chapter of task-a: accept, three sends, close. *)
Lemma socket_accept_sends_close_witness :
  ws_actions
    (new_obs Demo.world (snd (stream "task-a" "KeyMoment" 0 0 Demo.world)))
  = [WsAccept; WsSend (Processing 1 1);
     WsSend (ChapterComplete "video of script of Intro" "Intro");
     WsSend (Completed "All chapters processed successfully");
     WsClose 1000 None].
Proof.
  refine (eq_trans
            (socket_accept_sends_close Demo.generate_script
               Demo.generate_voiceover Demo.generate_subtitles
               Demo.generate_image Demo.create_video Demo.not_found
               "task-a" "KeyMoment" 0 0 Demo.world _) _).
  - reflexivity.
  - vm_compute. reflexivity.
Defined.

(** The run on task-b ends with one "error" event. *)
Lemma one_closing_event_last_witness :
  exists body last,
    sent_events
      (new_obs Demo.world (snd (stream "task-b" "KeyMoment" 0 3 Demo.world)))
    = body ++ [last] /\
    forallb is_progress body = true /\
    (last = completed_event \/ exists msg, last = Error msg).
Proof.
  apply (one_closing_event_last Demo.generate_script
           Demo.generate_voiceover Demo.generate_subtitles
           Demo.generate_image Demo.create_video Demo.not_found
           "task-b" "KeyMoment" 0 3 Demo.world).
  reflexivity.
Defined.

(** The run on task-b: "processing" 1 and 2 of 3, one "chapter_complete". *)
Lemma progress_is_numbered_witness :
  exists k m : nat,
    (k <= length (py_slice (task_chapters Demo.task_b) 0 (3 + 1)))%nat /\
    List.filter is_processing
      (sent_events
         (new_obs Demo.world
            (snd (stream "task-b" "KeyMoment" 0 3 Demo.world))))
    = map (fun i => Processing (Z.of_nat i + 1)
                      (Z.of_nat
                         (length (py_slice (task_chapters Demo.task_b) 0
                                    (3 + 1)))))
        (seq 0 k) /\
    completed_titles
      (sent_events
         (new_obs Demo.world
            (snd (stream "task-b" "KeyMoment" 0 3 Demo.world))))
    = map title (take m (py_slice (task_chapters Demo.task_b) 0 (3 + 1))) /\
    ((m = k /\ k = length (py_slice (task_chapters Demo.task_b) 0 (3 + 1)) /\
      last (sent_events
              (new_obs Demo.world
                 (snd (stream "task-b" "KeyMoment" 0 3 Demo.world))))
      = Some completed_event) \/
     (k = S m /\
      exists msg,
        last (sent_events
                (new_obs Demo.world
                   (snd (stream "task-b" "KeyMoment" 0 3 Demo.world))))
        = Some (Error msg))).
Proof.
  apply (progress_is_numbered Demo.generate_script
           Demo.generate_voiceover Demo.generate_subtitles
           Demo.generate_image Demo.create_video Demo.not_found
           "task-b" "KeyMoment" 0 3 Demo.world Demo.task_b).
  - reflexivity.
  - vm_compute. reflexivity.
Defined.

(** The voiceover fails on "Broken": two stage calls in its round. *)
Lemma failing_round_stops_at_failing_stage_witness :
  exists (a : Artifacts) (k : nat),
    (1 <= k <= 5)%nat /\
    fails_at Demo.generate_script Demo.generate_voiceover
      Demo.generate_subtitles Demo.generate_image Demo.create_video
      k "KeyMoment" (Build_Chapter "Broken") a
      (Exception "voice synthesis failed") /\
    new_obs Demo.world (snd (stream "task-b" "KeyMoment" 0 3 Demo.world))
    = [WsAccept; DbGetChapters "task-b"]
      ++ rounds_obs "KeyMoment"
           (Z.of_nat
              (length ([Build_Chapter "Intro"]
                       ++ Build_Chapter "Broken"
                          :: [Build_Chapter "Conclusion"])))
           0
           (zip [Build_Chapter "Intro"]
              [Build_Artifacts "script of Intro" "audio of script of Intro"
                 "subtitles of audio of script of Intro"
                 "image of script of Intro" "video of script of Intro"])
      ++ WsSend (Processing (Z.of_nat (length [Build_Chapter "Intro"]) + 1)
                   (Z.of_nat
                      (length ([Build_Chapter "Intro"]
                               ++ Build_Chapter "Broken"
                                  :: [Build_Chapter "Conclusion"]))))
         :: take k (stage_calls "KeyMoment" (Build_Chapter "Broken") a)
      ++ [WsSend (Error (str (Exception "voice synthesis failed")));
          WsClose 1000 None].
Proof.
  apply (failing_round_stops_at_failing_stage Demo.generate_script
           Demo.generate_voiceover Demo.generate_subtitles
           Demo.generate_image Demo.create_video Demo.not_found
           "task-b" "KeyMoment" 0 3 Demo.world Demo.task_b).
  - reflexivity.
  - vm_compute. reflexivity.
  - vm_compute. reflexivity.
  - repeat constructor.
  - vm_compute. reflexivity.
Defined.

(** Chapters 1 to 5 of task-a: scripts for "Body" and "Conclusion". *)
Lemma scripts_follow_stored_order_witness :
  (exists before after,
     task_chapters Demo.task_a
     = before ++ py_slice (task_chapters Demo.task_a) 1 (5 + 1) ++ after) /\
  (exists later,
     py_slice (task_chapters Demo.task_a) 1 (5 + 1)
     = scripts_requested
         (new_obs Demo.world
            (snd (stream "task-a" "KeyMoment" 1 5 Demo.world)))
       ++ later).
Proof.
  apply (scripts_follow_stored_order Demo.generate_script
           Demo.generate_voiceover Demo.generate_subtitles
           Demo.generate_image Demo.create_video Demo.not_found
           "task-a" "KeyMoment" 1 5 Demo.world Demo.task_a).
  - reflexivity.
  - vm_compute. reflexivity.
Defined.



(** The empty document: 422, and the file is removed before the close. *)
Lemma unprocessed_upload_is_422_witness :
  fst (upload Demo.empty_doc Demo.world)
  = Raise (HTTPException 422 "Error processing file: empty document") /\
  new_obs Demo.world (snd (upload Demo.empty_doc Demo.world))
  = [FsOpen "./videos/tmp/empty.txt"; FsWrite "./videos/tmp/empty.txt";
     CallProcessFile "./videos/tmp/empty.txt";
     FsRemove "./videos/tmp/empty.txt"; FileClose].
Proof.
  refine (proj1 (unprocessed_upload_is_422 Demo.process_file
                  Demo.generact_list_of_subject Demo.uuid4_str
                  Demo.open_error Demo.write_error Demo.empty_doc Demo.world
                  (Exception "empty document") _ _) _).
  - split; [reflexivity|vm_compute; discriminate].
  - split; reflexivity.
  - reflexivity.
Defined.

(** The small document: the eight effects in order. *)
Lemma successful_upload_in_order_witness :
  fst (upload Demo.doc Demo.world)
  = Ok {| task_id := "task-0"; chapters := ["Intro"; "Body"; "Conclusion"] |} /\
  new_obs Demo.world (snd (upload Demo.doc Demo.world))
  = [FsOpen "./videos/tmp/doc.txt"; FsWrite "./videos/tmp/doc.txt";
     CallProcessFile "./videos/tmp/doc.txt"; CallSubjects "extracted text";
     Uuid4 0; DbStoreTask "task-0"; FileClose;
     FsRemove "./videos/tmp/doc.txt"] /\
  uuids (snd (upload Demo.doc Demo.world)) = 1%nat.
Proof.
  apply (successful_upload_in_order Demo.process_file
           Demo.generact_list_of_subject Demo.uuid4_str Demo.open_error
           Demo.write_error Demo.doc Demo.world "extracted text"
           ["Intro"; "Body"; "Conclusion"]).
  - split; [reflexivity|vm_compute; discriminate].
  - split; reflexivity.
  - reflexivity.
  - reflexivity.
Defined.


(** Upload the small document, then stream chapters 0 to 1 of the new task:
    "Intro" and "Body", then "completed". *)
Lemma upload_then_stream_witness :
  fst (upload Demo.doc Demo.world)
  = Ok {| task_id := "task-0"; chapters := ["Intro"; "Body"; "Conclusion"] |} /\
  sent_events
    (new_obs (snd (upload Demo.doc Demo.world))
       (snd (stream "task-0" "KeyMoment" 0 1
               (snd (upload Demo.doc Demo.world)))))
  = [Processing 1 2; ChapterComplete "video of script of Intro" "Intro";
     Processing 2 2; ChapterComplete "video of script of Body" "Body";
     Completed "All chapters processed successfully"].
Proof.
  refine (upload_then_stream Demo.process_file
            Demo.generact_list_of_subject Demo.generate_script
            Demo.generate_voiceover Demo.generate_subtitles
            Demo.generate_image Demo.create_video Demo.uuid4_str
            Demo.open_error Demo.write_error Demo.not_found
            Demo.doc Demo.world "extracted text"
            ["Intro"; "Body"; "Conclusion"] "KeyMoment" 0 1
            ["video of script of Intro"; "video of script of Body"]
            _ _ _ _ _ _).
  - split; [reflexivity|vm_compute; discriminate].
  - split; reflexivity.
  - reflexivity.
  - reflexivity.
  - reflexivity.
  - repeat constructor.
Defined.

End More.
